(** * The RAG engine of the TDS virtual teaching assistant

    A shallow embedding of [app/rag_engine.py] (and of the health handler
    of [main.py], which reads the engine), with the properties the
    specification states about it.

    Conventions.
    - A Python [str] is a Rocq [string]; a character is a code point below
      256, so that [str.isspace] and [str.isdigit] are the Python predicates
      restricted to that range.
    - A raised exception is carried as its message [str(e)], the only thing
      the engine ever reads from an exception.
    - The libraries the engine calls (the embedding model, the FAISS index,
      the text splitter, PIL, the generative model, the file system) are an
      explicit [World] of outcomes; every call can fail where the Python
      call can raise. *)

From Stdlib Require Import String Ascii List Bool Arith Lia ZArith DecimalString.
Import ListNotations.
Open Scope string_scope.

(* ===================================================================== *)
(** ** Python string operations used by the engine *)
(* ===================================================================== *)

Module PyStr.

(** The line feed, [\n]. *)
Definition nl : string := String (ascii_of_nat 10) EmptyString.

(** [bool(s)] for a string. *)
Definition truthy (s : string) : bool :=
  match s with
  | EmptyString => false
  | String _ _ => true
  end.

(** [c.isspace()] on code points below 256:
    9..13, 28..31, 32, 133 and 160. *)
Definition isspace (c : ascii) : bool :=
  let n := nat_of_ascii c in
  (((9 <=? n) && (n <=? 13)) || ((28 <=? n) && (n <=? 32))
   || (n =? 133) || (n =? 160))%nat.

(** [c.isdigit()] on code points below 256: the ten ASCII digits and the
    superscripts 178, 179 and 185. *)
Definition isdigit_char (c : ascii) : bool :=
  let n := nat_of_ascii c in
  (((48 <=? n) && (n <=? 57)) || (n =? 178) || (n =? 179) || (n =? 185))%nat.

Fixpoint all_chars (p : ascii -> bool) (s : string) : bool :=
  match s with
  | EmptyString => true
  | String c s' => p c && all_chars p s'
  end.

(** [s.isdigit()]: at least one character, and all of them digits. *)
Definition isdigit (s : string) : bool := truthy s && all_chars isdigit_char s.

(** [sub in s]. *)
Fixpoint contains (sub s : string) : bool :=
  prefix sub s ||
  match s with
  | EmptyString => false
  | String _ s' => contains sub s'
  end.

(** [s.lstrip()], [s.rstrip()] and [s.strip()]. *)
Fixpoint lstrip (s : string) : string :=
  match s with
  | EmptyString => EmptyString
  | String c s' => if isspace c then lstrip s' else s
  end.

Fixpoint rstrip (s : string) : string :=
  match s with
  | EmptyString => EmptyString
  | String c s' =>
      match rstrip s' with
      | EmptyString => if isspace c then EmptyString else String c EmptyString
      | r => String c r
      end
  end.

Definition strip (s : string) : string := rstrip (lstrip s).

(** [s.split(sep)] for a one-character separator: never an empty list. *)
Fixpoint split (sep : ascii) (s : string) : list string :=
  match s with
  | EmptyString => [EmptyString]
  | String c s' =>
      if Ascii.eqb c sep then EmptyString :: split sep s'
      else match split sep s' with
           | [] => [String c EmptyString]
           | w :: ws => String c w :: ws
           end
  end.

(** [s.replace(old, new)] for a non-empty [old]: occurrences are taken
    from the left and do not overlap.  [skip] counts the characters of
    the occurrence being dropped. *)
Fixpoint replace_from (old new : string) (skip : nat) (s : string) : string :=
  match s with
  | EmptyString => EmptyString
  | String c s' =>
      match skip with
      | S k => replace_from old new k s'
      | O =>
          if prefix old s
          then new ++ replace_from old new (String.length old - 1) s'
          else String c (replace_from old new 0 s')
      end
  end.

Definition replace (old new s : string) : string := replace_from old new 0 s.

(** [parts[-1]] of a list that [split] returned. *)
Definition last_part (parts : list string) : string := last parts EmptyString.

(** [s.rfind(".")], as the position counted from the left. *)
Fixpoint rfind_dot (s : string) : option nat :=
  match s with
  | EmptyString => None
  | String c s' =>
      match rfind_dot s' with
      | Some i => Some (S i)
      | None => if Ascii.eqb c "."%char then Some 0 else None
      end
  end.

End PyStr.

(* ===================================================================== *)
(** ** [pathlib.Path] on a POSIX system: [name] and [stem] *)
(* ===================================================================== *)

Module PosixPath.

(** The components that [Path(s)] keeps: empty components and [.] are
    dropped when the path is parsed. *)
Definition kept (part : string) : bool :=
  negb (String.eqb part "" || String.eqb part ".").

Definition components (s : string) : list string :=
  filter kept (PyStr.split "/"%char s).

(** [Path(s).name]: the last component, the empty string for a path
    that has none. *)
Definition name (s : string) : string := last (components s) "".

(** [Path(s).stem]: the name without its last suffix; a dot that is the
    first or the last character of the name starts no suffix. *)
Definition stem (s : string) : string :=
  let n := name s in
  match PyStr.rfind_dot n with
  | Some i =>
      if ((0 <? i) && (i <? String.length n - 1))%nat
      then substring 0 i n
      else n
  | None => n
  end.

End PosixPath.

(* ===================================================================== *)
(** ** Data model *)
(* ===================================================================== *)

(** The outcome of a Python call: a value, or an exception carried as
    [str(e)]. *)
Inductive Result (A : Type) : Type :=
| Ok (a : A)
| Raise (e : string).
Arguments Ok {A} a.
Arguments Raise {A} e.

(** A Python [dict] from strings to strings, in insertion order. *)
Definition Dict := list (string * string).

(** [d.get(key, default)]. *)
Fixpoint dict_get (key : string) (d : Dict) (default : string) : string :=
  match d with
  | [] => default
  | (k, v) :: d' => if String.eqb k key then v else dict_get key d' default
  end.

(** [langchain.schema.Document]; a chunk is a [Document] too. *)
Record Document := {
  page_content : string;
  metadata : Dict
}.

(** The FAISS vector store, as the chunks it holds.  Their vectors stay
    with the embedding model: the engine only reaches them through
    [similarity_search]. *)
Definition FAISS := list Document.

Inductive EmbeddingModel := HuggingFaceEmbeddings (model_name cache_folder : string).
Inductive GeminiModel := GenerativeModel (model_name : string).

(** A decoded [PIL.Image]. *)
Inductive Image := PILImage (image_bytes : string).

(** The fields of [app.config.Settings] that the engine reads. *)
Record Settings := {
  GOOGLE_API_KEY : string;
  GEMINI_MODEL : string;
  DISCOURSE_DATA_PATH : string;
  VECTOR_DB_PATH : string;
  NUM_RETRIEVED_DOCS : nat;
  CHUNK_SIZE : nat;
  CHUNK_OVERLAP : nat
}.

(** One entry of the links list, and the dictionary [answer_question]
    returns. *)
Record Link := { url : string; text : string }.
Record AnswerResult := { answer : string; links : list Link }.

(** The module-level variables of [rag_engine.py]. *)
Record Globals := {
  _embedding_model : option EmbeddingModel;
  _gemini_model : option GeminiModel;
  _vector_store : option FAISS;
  _initialization_complete : bool;
  _initialization_error : option string
}.

(** A process: its module globals and the index directories on its disk,
    the most recently saved first. *)
Record Proc := {
  globals : Globals;
  index_dirs : list (string * FAISS)
}.

(** The calls of the per-question pipeline to the outside, in the order
    they are made. *)
Inductive Call :=
| ImageDecode (payload : string)
| Search (question : string) (k : nat)
| Generate (prompt : string) (image : option Image).

(** What the libraries do when called.  A fault is the message of the
    exception the call raises. *)
Record World := {
  embeddings_fault : option string;
  gemini_fault : string -> string -> option string;
  list_dir : string -> Result (option (list string));
  read_text : string -> string -> Result string;
  split_documents : nat -> nat -> list Document -> Result (list Document);
  mkdir_fault : string -> option string;
  faiss_build_fault : list Document -> option string;
  faiss_save_fault : string -> option string;
  faiss_load_fault : string -> option string;
  search_fault : string -> option string;
  distance : string -> Document -> nat;
  image_open : string -> Result Image;
  generate_content : string -> option Image -> Result string;
  path_fault : string -> option string
}.

Definition outcome {A : Type} (fault : option string) (a : A) : Result A :=
  match fault with
  | Some e => Raise e
  | None => Ok a
  end.

(* ===================================================================== *)
(** ** The monad of engine code: globals and disk, exceptions, calls *)
(* ===================================================================== *)

Module Py.

Definition M (A : Type) : Type := Proc -> Result A * Proc * list Call.

Definition ret {A : Type} (a : A) : M A := fun p => (Ok a, p, []).

Definition raise {A : Type} (e : string) : M A := fun p => (Raise e, p, []).

Definition bind {A B : Type} (m : M A) (k : A -> M B) : M B :=
  fun p =>
    match m p with
    | (Ok a, p1, c1) =>
        match k a p1 with
        | (r, p2, c2) => (r, p2, (c1 ++ c2)%list)
        end
    | (Raise e, p1, c1) => (Raise e, p1, c1)
    end.

(** [try: m  except Exception as e: handler(e)].  What [m] did before it
    raised stays done. *)
Definition try_except {A : Type} (m : M A) (handler : string -> M A) : M A :=
  fun p =>
    match m p with
    | (Ok a, p1, c1) => (Ok a, p1, c1)
    | (Raise e, p1, c1) =>
        match handler e p1 with
        | (r, p2, c2) => (r, p2, (c1 ++ c2)%list)
        end
    end.

(** A library call that is not recorded, and one that is. *)
Definition io {A : Type} (r : Result A) : M A := fun p => (r, p, []).
Definition call {A : Type} (c : Call) (r : Result A) : M A := fun p => (r, p, [c]).

Definition read_globals : M Globals := fun p => (Ok (globals p), p, []).

Definition write_globals (f : Globals -> Globals) : M unit :=
  fun p => (Ok tt, {| globals := f (globals p); index_dirs := index_dirs p |}, []).

Definition read_disk : M (list (string * FAISS)) := fun p => (Ok (index_dirs p), p, []).

Definition write_disk (f : list (string * FAISS) -> list (string * FAISS)) : M unit :=
  fun p => (Ok tt, {| globals := globals p; index_dirs := f (index_dirs p) |}, []).

Definition result_of {A : Type} (x : Result A * Proc * list Call) : Result A := fst (fst x).
Definition proc_of {A : Type} (x : Result A * Proc * list Call) : Proc := snd (fst x).
Definition calls_of {A : Type} (x : Result A * Proc * list Call) : list Call := snd x.

End Py.

Import Py.

Declare Scope py_scope.
Delimit Scope py_scope with py.
Notation "x <- m ;; k" := (bind m (fun x => k))
  (at level 61, m at next level, right associativity) : py_scope.
Notation "m ;; k" := (bind m (fun _ => k))
  (at level 61, right associativity) : py_scope.
Open Scope py_scope.

(** Assignments to the module globals. *)
Definition set_embedding_model (v : option EmbeddingModel) (g : Globals) : Globals :=
  {| _embedding_model := v;
     _gemini_model := _gemini_model g;
     _vector_store := _vector_store g;
     _initialization_complete := _initialization_complete g;
     _initialization_error := _initialization_error g |}.

Definition set_gemini_model (v : option GeminiModel) (g : Globals) : Globals :=
  {| _embedding_model := _embedding_model g;
     _gemini_model := v;
     _vector_store := _vector_store g;
     _initialization_complete := _initialization_complete g;
     _initialization_error := _initialization_error g |}.

Definition set_vector_store (v : option FAISS) (g : Globals) : Globals :=
  {| _embedding_model := _embedding_model g;
     _gemini_model := _gemini_model g;
     _vector_store := v;
     _initialization_complete := _initialization_complete g;
     _initialization_error := _initialization_error g |}.

Definition set_initialization_complete (v : bool) (g : Globals) : Globals :=
  {| _embedding_model := _embedding_model g;
     _gemini_model := _gemini_model g;
     _vector_store := _vector_store g;
     _initialization_complete := v;
     _initialization_error := _initialization_error g |}.

Definition set_initialization_error (v : option string) (g : Globals) : Globals :=
  {| _embedding_model := _embedding_model g;
     _gemini_model := _gemini_model g;
     _vector_store := _vector_store g;
     _initialization_complete := _initialization_complete g;
     _initialization_error := v |}.

(** The globals when the module has just been imported. *)
Definition module_globals : Globals :=
  {| _embedding_model := None;
     _gemini_model := None;
     _vector_store := None;
     _initialization_complete := false;
     _initialization_error := None |}.

(* ===================================================================== *)
(** ** The engine: singletons and the content loader *)
(* ===================================================================== *)

Definition dict_find (key : string) (d : Dict) : option string :=
  match find (fun kv => String.eqb (fst kv) key) d with
  | Some kv => Some (snd kv)
  | None => None
  end.

Fixpoint lookup_dir (path : string) (dirs : list (string * FAISS)) : option FAISS :=
  match dirs with
  | [] => None
  | (p, vs) :: dirs' => if String.eqb p path then Some vs else lookup_dir path dirs'
  end.

(** [get_embedding_model()]: the handler logs and raises again. *)
Definition get_embedding_model (w : World) : M EmbeddingModel :=
  g <- read_globals ;;
  match _embedding_model g with
  | None =>
      try_except
        (m <- io (outcome (embeddings_fault w)
                    (HuggingFaceEmbeddings "sentence-transformers/all-MiniLM-L6-v2"
                                           "./model_cache")) ;;
         write_globals (set_embedding_model (Some m)) ;;
         ret m)
        (fun e => raise e)
  | Some m => ret m
  end.

(** [get_gemini_model(api_key, model_name)]. *)
Definition get_gemini_model (w : World) (api_key model_name : string) : M GeminiModel :=
  g <- read_globals ;;
  match _gemini_model g with
  | None =>
      try_except
        (m <- io (outcome (gemini_fault w api_key model_name)
                    (GenerativeModel model_name)) ;;
         write_globals (set_gemini_model (Some m)) ;;
         ret m)
        (fun e => raise e)
  | Some m => ret m
  end.

(** [get_vector_store(vector_store_path, embedding_model)]: the function
    declares [global _vector_store], so the loaded index lands in the
    module global.  [Path(vector_store_path).exists()] is the look-up in
    the index directories of the process; the test stands before the
    [try] and is taken to return. *)
Definition get_vector_store (w : World) (vector_store_path : string)
    (embedding_model : option EmbeddingModel) : M (option FAISS) :=
  g <- read_globals ;;
  match _vector_store g with
  | None =>
      disk <- read_disk ;;
      match lookup_dir vector_store_path disk with
      | Some stored =>
          try_except
            (vs <- io (outcome (faiss_load_fault w vector_store_path) stored) ;;
             write_globals (set_vector_store (Some vs)))
            (fun _ => write_globals (set_vector_store None))
      | None => write_globals (set_vector_store None)
      end
  | Some _ => ret tt
  end ;;
  g' <- read_globals ;;
  ret (_vector_store g').

(** The marker of the metadata line of a post file. *)
Definition url_marker : string := "**URL:**".

(** The loop over [lines] of [_load_documents], with its [break]. *)
Fixpoint extract_url (lines : list string) : string :=
  match lines with
  | [] => ""
  | line :: rest =>
      if PyStr.contains url_marker line
      then PyStr.strip (PyStr.replace url_marker "" line)
      else extract_url rest
  end.

(** The [Document] built from the text of one file. *)
Definition post_document (file_name content : string) : Document :=
  {| page_content := content;
     metadata := [("source", extract_url (PyStr.split (ascii_of_nat 10) content));
                  ("filename", file_name)] |}.

Fixpoint ends_with (suffix s : string) : bool :=
  String.eqb suffix s ||
  match s with
  | EmptyString => false
  | String _ s' => ends_with suffix s'
  end.

(** [list(discourse_path.glob("*.md"))] on the names of a directory. *)
Definition glob_md (names : list string) : list string := filter (ends_with ".md") names.

(** The loop over [md_files]: a file whose reading raises is logged and
    left out. *)
Fixpoint load_files (w : World) (dir : string) (md_files : list string)
    (documents : list Document) : M (list Document) :=
  match md_files with
  | [] => ret documents
  | file_name :: rest =>
      documents' <-
        try_except
          (content <- io (read_text w dir file_name) ;;
           ret (documents ++ [post_document file_name content])%list)
          (fun _ => ret documents) ;;
      load_files w dir rest documents'
  end.

(** [_load_documents(settings)].  The outer handler returns the documents
    gathered so far; only the look at the directory can reach it, before
    any document exists. *)
Definition _load_documents (w : World) (settings : Settings) : M (list Document) :=
  try_except
    (listing <- io (list_dir w (DISCOURSE_DATA_PATH settings)) ;;
     match listing with
     | Some names => load_files w (DISCOURSE_DATA_PATH settings) (glob_md names) []
     | None => ret []
     end)
    (fun _ => ret []).

(* ===================================================================== *)
(** ** The engine: background initialization *)
(* ===================================================================== *)

(** [initialize_in_background(settings)].  The function declares only
    [_initialization_complete] and [_initialization_error] as globals: the
    name [_vector_store] it assigns the new index to is local to the call,
    so the build is saved to disk and the module global is left as
    [get_vector_store] set it. *)
Definition initialize_in_background (w : World) (settings : Settings) : M unit :=
  try_except
    (get_embedding_model w ;;
     get_gemini_model w (GOOGLE_API_KEY settings) (GEMINI_MODEL settings) ;;
     g <- read_globals ;;
     vector_store <- get_vector_store w (VECTOR_DB_PATH settings) (_embedding_model g) ;;
     match vector_store with
     | None =>
         documents <- _load_documents w settings ;;
         match documents with
         | [] => ret tt
         | _ :: _ =>
             splits <- io (split_documents w (CHUNK_SIZE settings)
                             (CHUNK_OVERLAP settings) documents) ;;
             io (outcome (mkdir_fault w (VECTOR_DB_PATH settings)) tt) ;;
             local_vector_store <- io (outcome (faiss_build_fault w splits) splits) ;;
             io (outcome (faiss_save_fault w (VECTOR_DB_PATH settings)) tt) ;;
             write_disk (cons (VECTOR_DB_PATH settings, local_vector_store))
         end
     | Some _ => ret tt
     end ;;
     write_globals (set_initialization_complete true))
    (fun e => write_globals (set_initialization_error (Some e))).

(* ===================================================================== *)
(** ** The engine: readiness and status *)
(* ===================================================================== *)

(** [RAGEngine.is_ready()]. *)
Definition is_ready (g : Globals) : bool := _initialization_complete g.

(** [bool(x)] for the optional message in [_initialization_error]. *)
Definition error_truthy (e : option string) : bool :=
  match e with
  | Some m => PyStr.truthy m
  | None => false
  end.

(** [RAGEngine.get_initialization_status()]. *)
Definition get_initialization_status (g : Globals) : Dict :=
  if error_truthy (_initialization_error g)
  then [("status", "error");
        ("error", match _initialization_error g with Some m => m | None => "" end)]
  else if _initialization_complete g
  then [("status", "ready")]
  else [("status", "initializing")].

(** [main.StatusResponse] and the handler of [GET /health]. *)
Record StatusResponse := { status : string; error : option string }.

Definition health_check (g : Globals) : StatusResponse :=
  let st := get_initialization_status g in
  {| status := dict_get "status" st ""; error := dict_find "error" st |}.

(* ===================================================================== *)
(** ** The engine: answering a question *)
(* ===================================================================== *)

(** [RAGEngine._get_discourse_post_title(post_id)]. *)
Definition _get_discourse_post_title (post_id : string) : string :=
  "Discourse Post #" ++ post_id.

(** [Path(source)], which the body of the formatter runs under its
    [try]. *)
Definition Path (w : World) (source : string) : M string :=
  io (outcome (path_fault w source) source).

(** [RAGEngine._format_source_as_link_text(source)]. *)
Definition _format_source_as_link_text (w : World) (source : string) : M string :=
  try_except
    (path <- Path w source ;;
     if PyStr.contains "course_content" source
     then ret ("Course Material: " ++ PosixPath.name path)
     else if PyStr.contains "discourse_posts" source
             || PyStr.contains "onlinedegree.iitm.ac.in" source
     then
       if PyStr.contains "onlinedegree.iitm.ac.in" source
       then
         let parts := PyStr.split "/"%char source in
         if (2 <=? List.length parts)%nat
            && PyStr.truthy (_get_discourse_post_title (PyStr.last_part parts))
         then ret ("Discussion: " ++ _get_discourse_post_title (PyStr.last_part parts))
         else ret ("Discussion Post: " ++ PyStr.last_part (PyStr.split "/"%char source))
       else
         if PyStr.isdigit (PosixPath.stem path)
            && PyStr.truthy (_get_discourse_post_title (PosixPath.stem path))
         then ret (_get_discourse_post_title (PosixPath.stem path))
         else ret ("Discourse Post: " ++ PosixPath.name path)
     else ret (PosixPath.name path))
    (fun _ => ret source).

(** [RAGEngine._create_prompt(question, context)]. *)
Definition _create_prompt (question context : string) : string :=
  if PyStr.truthy context
  then
    "You are a virtual teaching assistant for a Technical Data Science (TDS) class at IIT Madras' Online Degree in Data Science. " ++ PyStr.nl ++
    "Use the following context to answer the student's question." ++ PyStr.nl ++
    "If the information is not in the context, just say that you don't know but would be happy to help with other questions." ++ PyStr.nl ++
    "Do not make up answers that are not supported by the context." ++ PyStr.nl ++
    "Provide a clear, concise answer." ++ PyStr.nl ++
    PyStr.nl ++
    "CONTEXT:" ++ PyStr.nl ++
    context ++ PyStr.nl ++
    PyStr.nl ++
    "STUDENT QUESTION:" ++ PyStr.nl ++
    question ++ PyStr.nl ++
    PyStr.nl ++
    "YOUR ANSWER:"
  else
    "You are a virtual teaching assistant for a Technical Data Science (TDS) class at IIT Madras' Online Degree in Data Science." ++ PyStr.nl ++
    "Answer the student's question based on your knowledge." ++ PyStr.nl ++
    "If you don't know the answer, just say that you don't know but would be happy to help with other questions." ++ PyStr.nl ++
    "Do not make up answers." ++ PyStr.nl ++
    "Provide a clear, concise answer." ++ PyStr.nl ++
    PyStr.nl ++
    "STUDENT QUESTION:" ++ PyStr.nl ++
    question ++ PyStr.nl ++
    PyStr.nl ++
    "YOUR ANSWER:".

(** [FAISS.similarity_search(question, k)]: the [k] chunks nearest to the
    question, nearest first, chunks at the same distance in index order. *)
Fixpoint insert_by (d : Document -> nat) (x : Document) (sorted : list Document)
    : list Document :=
  match sorted with
  | [] => [x]
  | y :: rest => if (d x <=? d y)%nat then x :: sorted else y :: insert_by d x rest
  end.

Definition nearest_first (d : Document -> nat) (chunks : list Document) : list Document :=
  fold_right (insert_by d) [] chunks.

Definition similarity_search (w : World) (vs : FAISS) (question : string) (k : nat)
    : M (list Document) :=
  call (Search question k)
       (outcome (search_fault w question)
                (firstn k (nearest_first (distance w question) vs))).

(** The message of the exception raised while the engine is not ready. *)
Definition not_ready_message : string :=
  "RAG engine is not yet initialized. Please try again later.".

(** The text the graceful error answer starts with. *)
Definition apology : string :=
  "I'm sorry, I encountered an error while processing your question. Please try again or contact support if the issue persists. Error details: ".

Definition error_answer (e : string) : AnswerResult :=
  {| answer := apology ++ e; links := [] |}.

(** The image step of [answer_question]: a failed decode is logged and
    leaves [image = None]. *)
Definition process_image (w : World) (image_data : option string) : M (option Image) :=
  match image_data with
  | Some payload =>
      if PyStr.truthy payload
      then try_except
             (image <- call (ImageDecode payload) (image_open w payload) ;;
              ret (Some image))
             (fun _ => ret None)
      else ret None
  | None => ret None
  end.

(** The retrieval step: no index, or a search that raises, leaves
    [relevant_docs = []]. *)
Definition retrieve (w : World) (settings : Settings) (question : string)
    : M (list Document) :=
  g <- read_globals ;;
  match _vector_store g with
  | Some vs =>
      try_except
        (similarity_search w vs question (NUM_RETRIEVED_DOCS settings))
        (fun _ => ret [])
  | None => ret []
  end.

(** The loop over [relevant_docs] that grows [context] and [links]. *)
Fixpoint gather (w : World) (relevant_docs : list Document) (context : string)
    (links : list Link) : M (string * list Link) :=
  match relevant_docs with
  | [] => ret (context, links)
  | doc :: rest =>
      let context' := context ++ page_content doc ++ PyStr.nl ++ PyStr.nl in
      let source := dict_get "source" (metadata doc) "" in
      if PyStr.truthy source
      then
        link_text <- _format_source_as_link_text w source ;;
        gather w rest context' (links ++ [{| url := source; text := link_text |}])%list
      else gather w rest context' links
  end.

(** [_gemini_model.generate_content(...)] followed by [response.text]. *)
Definition generate (w : World) (prompt : string) (image : option Image) : M string :=
  g <- read_globals ;;
  match _gemini_model g with
  | Some _ => call (Generate prompt image) (generate_content w prompt image)
  | None => raise "'NoneType' object has no attribute 'generate_content'"
  end.

(** [RAGEngine.answer_question(question, image_data)]. *)
Definition answer_question (w : World) (settings : Settings) (question : string)
    (image_data : option string) : M AnswerResult :=
  g <- read_globals ;;
  if negb (is_ready g)
  then raise not_ready_message
  else
    try_except
      (image <- process_image w image_data ;;
       relevant_docs <- retrieve w settings question ;;
       gathered <- gather w relevant_docs "" [] ;;
       let prompt := _create_prompt question (fst gathered) in
       answer_text <- generate w prompt image ;;
       ret {| answer := answer_text; links := snd gathered |})
      (fun e => ret (error_answer e)).

(* ===================================================================== *)
(** ** The service: one engine, built when [main.py] is imported *)
(* ===================================================================== *)

(** The initialization state of the specification, as the status
    dictionary tells it. *)
Inductive InitializationState :=
| Initializing
| Ready
| Failed (message : string).

Definition state_of_status (st : Dict) : InitializationState :=
  if String.eqb (dict_get "status" st "") "error" then Failed (dict_get "error" st "")
  else if String.eqb (dict_get "status" st "") "ready" then Ready
  else Initializing.

Definition current_state (g : Globals) : InitializationState :=
  state_of_status (get_initialization_status g).

(** The body [GET /health] answers with in a given state. *)
Definition render (s : InitializationState) : StatusResponse :=
  match s with
  | Initializing => {| status := "initializing"; error := None |}
  | Ready => {| status := "ready"; error := None |}
  | Failed m => {| status := "error"; error := Some m |}
  end.

Module Service.

(** The service with one engine: [main.py] builds one [RAGEngine] at
    import, and its constructor starts the thread that runs
    [initialize_in_background] once.  [init_thread_pending] holds until
    that thread has run.  This is the process that imports [main] once
    ([uvicorn main:app]); a process that constructs more engines runs the
    initialization once for each, see [Process] below. *)
Record State := {
  proc : Proc;
  init_thread_pending : bool
}.

Definition boot (disk : list (string * FAISS)) : State :=
  {| proc := {| globals := module_globals; index_dirs := disk |};
     init_thread_pending := true |}.

(** The steps of the service: the thread runs to its end, a health
    query is served, a question is answered.  The world may differ from
    one step to the next. *)
Inductive step (settings : Settings) : State -> State -> Prop :=
| step_background_initialization (w : World) (s : State) :
    init_thread_pending s = true ->
    step settings s
      {| proc := proc_of (initialize_in_background w settings (proc s));
         init_thread_pending := false |}
| step_health_query (s : State) :
    step settings s s
| step_question (w : World) (question : string) (image_data : option string)
    (s : State) :
    step settings s
      {| proc := proc_of (answer_question w settings question image_data (proc s));
         init_thread_pending := init_thread_pending s |}.

Inductive steps (settings : Settings) : State -> State -> Prop :=
| steps_refl (s : State) : steps settings s s
| steps_cons (s1 s2 s3 : State) :
    step settings s1 s2 -> steps settings s2 s3 -> steps settings s1 s3.

Definition reachable (settings : Settings) (disk : list (string * FAISS))
    (s : State) : Prop :=
  steps settings (boot disk) s.

Definition state_of (s : State) : InitializationState :=
  current_state (globals (proc s)).

End Service.

(* ===================================================================== *)
(** ** Worlds and processes for the examples *)
(* ===================================================================== *)

Module Examples.

Definition settings : Settings :=
  {| GOOGLE_API_KEY := "key";
     GEMINI_MODEL := "gemini-2.0-flash";
     DISCOURSE_DATA_PATH := "./data/discourse_posts";
     VECTOR_DB_PATH := "./data/vector_store";
     NUM_RETRIEVED_DOCS := 3;
     CHUNK_SIZE := 1000;
     CHUNK_OVERLAP := 100 |}.

Fixpoint read_from (files : list (string * Result string)) (file_name : string)
    : Result string :=
  match files with
  | [] => Raise "[Errno 2] No such file or directory"
  | (n, r) :: rest => if String.eqb n file_name then r else read_from rest file_name
  end.

(** A world in which no library call fails, except as its arguments
    say: the content directory, the image decoder, the generator and the
    fault of the index search. *)
Definition world (dir : option (list (string * Result string)))
    (decode : string -> Result Image)
    (generator : string -> option Image -> Result string)
    (search : option string) : World :=
  {| embeddings_fault := None;
     gemini_fault := fun _ _ => None;
     list_dir := fun _ =>
       Ok (match dir with Some files => Some (map fst files) | None => None end);
     read_text := fun _ file_name =>
       match dir with Some files => read_from files file_name | None => Raise "[Errno 2] No such file or directory" end;
     split_documents := fun _ _ docs => Ok docs;
     mkdir_fault := fun _ => None;
     faiss_build_fault := fun _ => None;
     faiss_save_fault := fun _ => None;
     faiss_load_fault := fun _ => None;
     search_fault := fun _ => search;
     distance := fun _ _ => 0;
     image_open := decode;
     generate_content := generator;
     path_fault := fun _ => None |}.

Definition bad_image : string -> Result Image :=
  fun _ => Raise "cannot identify image file".

Definition says (t : string) : string -> option Image -> Result string :=
  fun _ _ => Ok t.

Definition calm : World := world None bad_image (says "An answer.") None.

Definition chunk (source body : string) : Document :=
  {| page_content := body; metadata := [("source", source); ("filename", "post.md")] |}.

(** A process whose initialization has completed, holding [store]. *)
Definition ready_proc (store : option FAISS) : Proc :=
  {| globals :=
       {| _embedding_model :=
            Some (HuggingFaceEmbeddings "sentence-transformers/all-MiniLM-L6-v2" "./model_cache");
          _gemini_model := Some (GenerativeModel "gemini-2.0-flash");
          _vector_store := store;
          _initialization_complete := true;
          _initialization_error := None |};
     index_dirs := [] |}.

End Examples.

(* ===================================================================== *)
(** ** The functions the properties are stated with *)
(* ===================================================================== *)

(** What a batch of files loads to: a file that cannot be read gives no
    document, every other file gives its own. *)
Definition loaded (w : World) (dir : string) (md_files : list string) : list Document :=
  flat_map
    (fun file_name =>
       match read_text w dir file_name with
       | Ok content => [post_document file_name content]
       | Raise _ => []
       end)
    md_files.

Fixpoint drop (n : nat) (s : string) : string :=
  match n, s with
  | S k, String _ s' => drop k s'
  | _, _ => s
  end.

(** What the specification words as "the remainder of that line": the
    text that follows the marker where it first occurs. *)
Fixpoint remainder_after_marker (line : string) : string :=
  if prefix url_marker line
  then drop (String.length url_marker) line
  else match line with
       | EmptyString => EmptyString
       | String _ line' => remainder_after_marker line'
       end.

(** The source URL as the specification words it. *)
Definition source_url_as_specified (content : string) : string :=
  match find (PyStr.contains url_marker) (PyStr.split (ascii_of_nat 10) content) with
  | Some line => PyStr.strip (remainder_after_marker line)
  | None => ""
  end.

Definition post_7 : string :=
  "# Dictionaries" ++ PyStr.nl ++ PyStr.nl ++
  "**Author:** s  " ++ PyStr.nl ++
  "**URL:** https://discourse.onlinedegree.iitm.ac.in/t/5/7" ++ PyStr.nl ++ PyStr.nl ++
  "Python dicts are hash maps." ++ PyStr.nl.

Definition idle_proc : Proc := {| globals := module_globals; index_dirs := [] |}.

(** The label [_format_source_as_link_text] returns for [source]. *)
Definition link_text (w : World) (source : string) : string :=
  match result_of (_format_source_as_link_text w source idle_proc) with
  | Ok label => label
  | Raise _ => source
  end.

(** The image the generator is given, and the call made to obtain it. *)
Definition image_of (w : World) (image_data : option string) : option Image :=
  match result_of (process_image w image_data idle_proc) with
  | Ok image => image
  | Raise _ => None
  end.

Definition image_calls (image_data : option string) : list Call :=
  match image_data with
  | Some payload => if PyStr.truthy payload then [ImageDecode payload] else []
  | None => []
  end.

(** The chunks the pipeline goes on with, and the call made for them. *)
Definition retrieved (w : World) (settings : Settings) (question : string) (p : Proc)
    : list Document :=
  match result_of (retrieve w settings question p) with
  | Ok docs => docs
  | Raise _ => []
  end.

Definition retrieve_calls (settings : Settings) (question : string) (p : Proc)
    : list Call :=
  match _vector_store (globals p) with
  | Some _ => [Search question (NUM_RETRIEVED_DOCS settings)]
  | None => []
  end.

(** A chunk gives a link when its source is a non-empty string. *)
Definition has_source (doc : Document) : bool :=
  PyStr.truthy (dict_get "source" (metadata doc) "").

Definition link_for (w : World) (doc : Document) : Link :=
  {| url := dict_get "source" (metadata doc) "";
     text := link_text w (dict_get "source" (metadata doc) "") |}.

Definition links_of (w : World) (docs : list Document) : list Link :=
  map (link_for w) (filter has_source docs).

Fixpoint context_of (docs : list Document) : string :=
  match docs with
  | [] => ""
  | doc :: rest => (page_content doc ++ PyStr.nl ++ PyStr.nl) ++ context_of rest
  end.

Definition generate_calls (p : Proc) (prompt : string) (image : option Image)
    : list Call :=
  match _gemini_model (globals p) with
  | Some _ => [Generate prompt image]
  | None => []
  end.

Definition discussion_7 : string := "https://discourse.onlinedegree.iitm.ac.in/t/5/7".

Definition course_week1 : string := "data/course_content/week1.md".

(** Three chunks with sources A, A, B and one without a source. *)
Definition aab_store : FAISS :=
  [Examples.chunk discussion_7 "first";
   Examples.chunk discussion_7 "second";
   {| page_content := "no source"; metadata := [("filename", "x.md")] |};
   Examples.chunk course_week1 "third"].

Definition four_settings : Settings :=
  {| GOOGLE_API_KEY := "key";
     GEMINI_MODEL := "gemini-2.0-flash";
     DISCOURSE_DATA_PATH := "./data/discourse_posts";
     VECTOR_DB_PATH := "./data/vector_store";
     NUM_RETRIEVED_DOCS := 4;
     CHUNK_SIZE := 1000;
     CHUNK_OVERLAP := 100 |}.

(** From a process in [P], the computation ends in [Q], whether it
    returns or raises. *)
Definition hoare {A : Type} (P : Proc -> Prop) (m : M A)
    (Q : Result A -> Proc -> Prop) : Prop :=
  forall p, P p -> Q (result_of (m p)) (proc_of (m p)).

(** The computation keeps [I], whatever its outcome. *)
Definition keeps {A : Type} (I : Proc -> Prop) (m : M A) : Prop :=
  hoare I m (fun _ p => I p).

(** The two flags of the initialization. *)
Definition flags (p : Proc) : bool * option string :=
  (_initialization_complete (globals p), _initialization_error (globals p)).

(** While the thread has not run, no flag is set; and the completion
    flag is never set together with an error message. *)
Definition invariant (s : Service.State) : Prop :=
  (Service.init_thread_pending s = true -> flags (Service.proc s) = (false, None))
  /\ (_initialization_complete (globals (Service.proc s)) = true ->
      _initialization_error (globals (Service.proc s)) = None).

Definition boot_then_initialized (w : World) (settings : Settings)
    (disk : list (string * FAISS)) : Service.State :=
  {| Service.proc :=
       proc_of (initialize_in_background w settings (Service.proc (Service.boot disk)));
     Service.init_thread_pending := false |}.

Definition then_asked (w : World) (settings : Settings) (question : string)
    (s : Service.State) : Service.State :=
  {| Service.proc :=
       proc_of (answer_question w settings question None (Service.proc s));
     Service.init_thread_pending := Service.init_thread_pending s |}.

Definition no_index_in_memory (p : Proc) : Prop := _vector_store (globals p) = None.

Definition no_index_anywhere (path : string) (p : Proc) : Prop :=
  _vector_store (globals p) = None /\ lookup_dir path (index_dirs p) = None.

(** The scenario of the specification: one post file, no index yet. *)
Definition dict_post : string :=
  "**URL:** https://example.com/t/5/7" ++ PyStr.nl ++ PyStr.nl ++
  "Python dicts are hash maps.".

Definition dict_world : World :=
  Examples.world (Some [("7.md", Ok dict_post)]) Examples.bad_image
    (Examples.says "A dict is a hash map.") None.

Definition first_start : Proc :=
  proc_of (initialize_in_background dict_world Examples.settings
             (Service.proc (Service.boot []))).

(** A world in which the saved index cannot be loaded. *)
Definition unloadable_index_world : World :=
  {| embeddings_fault := None;
     gemini_fault := fun _ _ => None;
     list_dir := list_dir dict_world;
     read_text := read_text dict_world;
     split_documents := fun _ _ documents => Ok documents;
     mkdir_fault := fun _ => None;
     faiss_build_fault := fun _ => None;
     faiss_save_fault := fun _ => None;
     faiss_load_fault := fun _ => Some "could not open index.faiss";
     search_fault := fun _ => None;
     distance := fun _ _ => 0;
     image_open := Examples.bad_image;
     generate_content := Examples.says "";
     path_fault := fun _ => None |}.

(** A world in which the generative model cannot be created. *)
Definition bad_key_world : World :=
  {| embeddings_fault := None;
     gemini_fault := fun _ _ => Some "API key not valid";
     list_dir := list_dir Examples.calm;
     read_text := read_text Examples.calm;
     split_documents := split_documents Examples.calm;
     mkdir_fault := mkdir_fault Examples.calm;
     faiss_build_fault := faiss_build_fault Examples.calm;
     faiss_save_fault := faiss_save_fault Examples.calm;
     faiss_load_fault := faiss_load_fault Examples.calm;
     search_fault := search_fault Examples.calm;
     distance := distance Examples.calm;
     image_open := image_open Examples.calm;
     generate_content := generate_content Examples.calm;
     path_fault := path_fault Examples.calm |}.

(** A world in which loading the embedding model raises an exception
    with an empty message, as a bare [MemoryError()] has. *)
Definition silent_failure_world : World :=
  {| embeddings_fault := Some "";
     gemini_fault := gemini_fault Examples.calm;
     list_dir := list_dir Examples.calm;
     read_text := read_text Examples.calm;
     split_documents := split_documents Examples.calm;
     mkdir_fault := mkdir_fault Examples.calm;
     faiss_build_fault := faiss_build_fault Examples.calm;
     faiss_save_fault := faiss_save_fault Examples.calm;
     faiss_load_fault := faiss_load_fault Examples.calm;
     search_fault := search_fault Examples.calm;
     distance := distance Examples.calm;
     image_open := image_open Examples.calm;
     generate_content := generate_content Examples.calm;
     path_fault := path_fault Examples.calm |}.


Module Process.

(** A process with any number of engines.  The flags are globals of the
    module [app.rag_engine], which a process imports once: every
    [RAGEngine] of the process reads and writes the same two.
    [RAGEngine.__init__] starts a thread on [initialize_in_background] at
    every construction, whatever the flags hold.  [python main.py]
    constructs two engines: the script builds one as module [__main__],
    and [uvicorn.run("main:app")] imports the file again as module
    [main], which builds another.  A step is one such run, taken to its
    end, a health query, or a question; the runs of two threads may also
    overlap, the steps here are the runs that do not. *)
Inductive step (settings : Settings) : Proc -> Proc -> Prop :=
| run_of_initialization (w : World) (p : Proc) :
    step settings p (proc_of (initialize_in_background w settings p))
| health_query (p : Proc) :
    step settings p p
| question_asked (w : World) (question : string) (image_data : option string)
    (p : Proc) :
    step settings p (proc_of (answer_question w settings question image_data p)).

Inductive steps (settings : Settings) : Proc -> Proc -> Prop :=
| steps_none (p : Proc) : steps settings p p
| steps_more (p1 p2 p3 : Proc) :
    step settings p1 p2 -> steps settings p2 p3 -> steps settings p1 p3.

(** The process when [app.rag_engine] has just been imported. *)
Definition start (disk : list (string * FAISS)) : Proc :=
  {| globals := module_globals; index_dirs := disk |}.

Definition reachable (settings : Settings) (disk : list (string * FAISS))
    (p : Proc) : Prop :=
  steps settings (start disk) p.

End Process.







(** The only run of a process, failing with an empty message. *)
Definition failed_silently : Proc :=
  proc_of (initialize_in_background silent_failure_world Examples.settings
             (Process.start [])).

(* ===================================================================== *)
(** ** The handler of [POST /] in [main.py] *)
(* ===================================================================== *)

Module Main.

(** [main.QuestionRequest]. *)
Record QuestionRequest := { question : string; image : option string }.

(** What the handler gives back to the framework: the response model, or
    the [HTTPException] it raises, which the framework turns into a
    response with that status code. *)
Inductive Response :=
| AnswerResponse (answer : string) (links : list Link)
| HTTPException (status_code : nat) (detail : string).

(** [main.answer_question(request)]: the readiness test stands before the
    [try]; the engine is called under it. *)
Definition answer_question (w : World) (settings : Settings)
    (request : QuestionRequest) : M Response :=
  g <- read_globals ;;
  if negb (is_ready g)
  then ret (HTTPException 503
              "The RAG engine is still initializing. Please try again in a few minutes.")
  else
    try_except
      (response <- answer_question w settings (question request) (image request) ;;
       ret (AnswerResponse (answer response)
              (map (fun link => {| url := url link; text := text link |})
                   (links response))))
      (fun e =>
         ret (HTTPException 500
                ("An error occurred while processing your question: " ++ e))).

End Main.

(* ===================================================================== *)
(** ** [scripts/preprocess_data.py] *)
(* ===================================================================== *)

Module Preprocess.

(** A value of a field of a post, as [json.load] gives it: [None], a
    boolean, an integer or a string. *)
Inductive Scalar :=
| JNull
| JBool (b : bool)
| JInt (z : Z)
| JStr (s : string).

(** [bool(v)]. *)
Definition truthy (v : Scalar) : bool :=
  match v with
  | JNull => false
  | JBool b => b
  | JInt z => negb (Z.eqb z 0)
  | JStr s => PyStr.truthy s
  end.

(** [str(v)], as an f-string renders the value. *)
Definition str (v : Scalar) : string :=
  match v with
  | JNull => "None"
  | JBool true => "True"
  | JBool false => "False"
  | JInt z => NilZero.string_of_int (Z.to_int z)
  | JStr s => s
  end.


(** [post.get(key, default)]; [post.get(key)] has the default [None]. *)
Fixpoint get (key : string) (fields : list (string * Scalar)) (default : Scalar)
    : Scalar :=
  match fields with
  | [] => default
  | (k, v) :: rest => if String.eqb k key then v else get key rest default
  end.

(** The URL written on the metadata line of a post. *)
Definition post_url (post : list (string * Scalar)) : string :=
  "https://discourse.onlinedegree.iitm.ac.in/t/"
  ++ str (get "topic_id" post (JStr "")) ++ "/" ++ str (get "post_id" post JNull).













(** The characters of [str(n)] for an integer [n]. *)
Definition decimal_char (c : ascii) : bool :=
  let n := nat_of_ascii c in
  (((48 <=? n) && (n <=? 57)) || (n =? 45))%nat.

End Preprocess.

(** Whether [sub] starts [lit ++ s], when [lit] alone decides it. *)
Fixpoint prefix_decided (sub lit : string) : option bool :=
  match sub with
  | EmptyString => Some true
  | String a sub' =>
      match lit with
      | EmptyString => None
      | String b lit' => if Ascii.eqb a b then prefix_decided sub' lit' else Some false
      end
  end.

(** No occurrence of [sub] in [lit ++ s] starts inside [lit], whatever
    [s] is. *)
Fixpoint absent_in_literal (sub lit : string) : bool :=
  match lit with
  | EmptyString => true
  | String _ lit' =>
      match prefix_decided sub lit with
      | Some false => absent_in_literal sub lit'
      | _ => false
      end
  end.

(* ===================================================================== *)
(** ** Facts about the monad *)
(* ===================================================================== *)

Section MonadFacts.

Context {A B : Type}.

Lemma bind_ok (m : M A) (k : A -> M B) (p p1 : Proc) (a : A) (c1 : list Call) :
  m p = (Ok a, p1, c1) ->
  bind m k p = (result_of (k a p1), proc_of (k a p1), (c1 ++ calls_of (k a p1))%list).
Proof.
  intros H. unfold bind, result_of, proc_of, calls_of. rewrite H.
  destruct (k a p1) as [[r p2] c2]. reflexivity.
Qed.

Lemma bind_raise (m : M A) (k : A -> M B) (p p1 : Proc) (e : string) (c1 : list Call) :
  m p = (Raise e, p1, c1) ->
  bind m k p = (Raise e, p1, c1).
Proof.
  intros H. unfold bind. rewrite H. reflexivity.
Qed.

Lemma try_ok (m : M A) (h : string -> M A) (p p1 : Proc) (a : A) (c1 : list Call) :
  m p = (Ok a, p1, c1) ->
  try_except m h p = (Ok a, p1, c1).
Proof.
  intros H. unfold try_except. rewrite H. reflexivity.
Qed.

Lemma try_raise (m : M A) (h : string -> M A) (p p1 : Proc) (e : string)
    (c1 : list Call) :
  m p = (Raise e, p1, c1) ->
  try_except m h p = (result_of (h e p1), proc_of (h e p1), (c1 ++ calls_of (h e p1))%list).
Proof.
  intros H. unfold try_except, result_of, proc_of, calls_of. rewrite H.
  destruct (h e p1) as [[r p2] c2]. reflexivity.
Qed.

End MonadFacts.

(* ===================================================================== *)
(** ** The content loader *)
(* ===================================================================== *)

Lemma load_files_spec (w : World) (dir : string) (md_files : list string) :
  forall (documents : list Document) (p : Proc),
    load_files w dir md_files documents p
    = (Ok (documents ++ loaded w dir md_files)%list, p, []).
Proof.
  induction md_files as [| file_name rest IH]; intros documents p.
  - simpl. unfold ret. rewrite app_nil_r. reflexivity.
  - simpl load_files. unfold loaded. simpl flat_map. fold (loaded w dir rest).
    destruct (read_text w dir file_name) as [content | e] eqn:Hread.
    + erewrite bind_ok.
      2:{ apply try_ok. erewrite bind_ok by (unfold io; reflexivity).
          unfold ret, result_of, proc_of, calls_of; simpl. reflexivity. }
      rewrite IH. unfold result_of, proc_of, calls_of; simpl.
      rewrite <- app_assoc. reflexivity.
    + erewrite bind_ok.
      2:{ erewrite try_raise by (apply bind_raise; unfold io; reflexivity).
          unfold ret, result_of, proc_of, calls_of; simpl. reflexivity. }
      rewrite IH. unfold result_of, proc_of, calls_of; simpl. reflexivity.
Qed.

(** **** Claim C9.
    The content loader never raises and touches nothing: it returns the
    empty sequence when the content directory does not exist (or cannot be
    looked at), and otherwise one document for every markdown file that
    could be read, in directory order, the files whose reading failed
    being left out. *)
Theorem C9_loader_skips_failures_and_never_raises
    (w : World) (settings : Settings) (p : Proc) :
  _load_documents w settings p
  = (Ok (match list_dir w (DISCOURSE_DATA_PATH settings) with
         | Ok (Some names) =>
             flat_map
               (fun file_name =>
                  match read_text w (DISCOURSE_DATA_PATH settings) file_name with
                  | Ok content => [post_document file_name content]
                  | Raise _ => []
                  end)
               (glob_md names)
         | Ok None => []
         | Raise _ => []
         end), p, []).
Proof.
  unfold _load_documents.
  destruct (list_dir w (DISCOURSE_DATA_PATH settings)) as [[names |] | e] eqn:Hdir.
  - apply try_ok. erewrite bind_ok by (unfold io; reflexivity).
    cbv beta iota. rewrite load_files_spec. reflexivity.
  - apply try_ok. erewrite bind_ok by (unfold io; reflexivity).
    reflexivity.
  - erewrite try_raise by (apply bind_raise; unfold io; reflexivity).
    reflexivity.
Qed.

(** A failed file in the middle of a batch: its neighbours are loaded. *)
Example loader_skips_the_unreadable_file :
  result_of
    (_load_documents
       (Examples.world
          (Some [("1.md", Ok "one"); ("2.md", Raise "invalid start byte");
                 ("notes.txt", Ok "skipped by the glob"); ("3.md", Ok "three")])
          Examples.bad_image (Examples.says "") None)
       Examples.settings (Examples.ready_proc None))
  = Ok [post_document "1.md" "one"; post_document "3.md" "three"].
Proof. reflexivity. Qed.

(* ===================================================================== *)
(** ** The source URL of a loaded file *)
(* ===================================================================== *)

Lemma extract_url_first_marker_line (lines : list string) :
  extract_url lines
  = match find (PyStr.contains url_marker) lines with
    | Some line => PyStr.strip (PyStr.replace url_marker "" line)
    | None => ""
    end.
Proof.
  induction lines as [| line rest IH]; simpl.
  - reflexivity.
  - destruct (PyStr.contains url_marker line); [reflexivity | exact IH].
Qed.

Lemma prefix_cons (a b : ascii) (s1 s2 : string) :
  prefix (String a s1) (String b s2) = if ascii_dec a b then prefix s1 s2 else false.
Proof. reflexivity. Qed.

Lemma prefix_app (s rest : string) : prefix s (s ++ rest) = true.
Proof.
  induction s as [| c s IH].
  - destruct rest; reflexivity.
  - change ((String c s) ++ rest) with (String c (s ++ rest)). rewrite prefix_cons.
    destruct (ascii_dec c c) as [_ | Hne]; [exact IH | congruence].
Qed.

Lemma drop_app (s rest : string) : drop (String.length s) (s ++ rest) = rest.
Proof.
  induction s as [| c s IH]; [destruct rest; reflexivity | exact IH].
Qed.

Lemma replace_from_skips (old new s rest : string) :
  PyStr.replace_from old new (String.length s) (s ++ rest)
  = PyStr.replace_from old new 0 rest.
Proof.
  induction s as [| c s IH]; [reflexivity | exact IH].
Qed.

Lemma marker_starts_no_space (c : ascii) (s : string) :
  PyStr.isspace c = true -> prefix url_marker (String c s) = false.
Proof.
  intros Hc. unfold url_marker. rewrite prefix_cons.
  destruct (ascii_dec "*" c) as [Heq | Hne]; [| reflexivity].
  subst c. discriminate Hc.
Qed.

Lemma replace_passes_leading_space (pre s : string) :
  PyStr.all_chars PyStr.isspace pre = true ->
  PyStr.replace url_marker "" (pre ++ s) = pre ++ PyStr.replace url_marker "" s.
Proof.
  unfold PyStr.replace. induction pre as [| c pre IH]; intros Hpre.
  - reflexivity.
  - cbn [PyStr.all_chars] in Hpre. apply andb_prop in Hpre as [Hc Hpre].
    change ((String c pre) ++ s) with (String c (pre ++ s)).
    cbn [PyStr.replace_from]. rewrite (marker_starts_no_space c (pre ++ s) Hc).
    rewrite (IH Hpre). reflexivity.
Qed.

Lemma replace_at_occurrence (c : ascii) (old' new rest : string) :
  PyStr.replace (String c old') new (String c old' ++ rest)
  = new ++ PyStr.replace (String c old') new rest.
Proof.
  unfold PyStr.replace.
  change (String c old' ++ rest) with (String c (old' ++ rest)).
  cbn [PyStr.replace_from].
  change (String c (old' ++ rest)) with (String c old' ++ rest).
  rewrite prefix_app.
  replace (String.length (String c old') - 1) with (String.length old')
    by (cbn [String.length]; lia).
  rewrite replace_from_skips. reflexivity.
Qed.

Lemma replace_drops_leading_marker (rest : string) :
  PyStr.replace url_marker "" (url_marker ++ rest) = PyStr.replace url_marker "" rest.
Proof.
  unfold url_marker. rewrite replace_at_occurrence. reflexivity.
Qed.

Lemma replace_without_marker (s : string) :
  PyStr.contains url_marker s = false -> PyStr.replace url_marker "" s = s.
Proof.
  unfold PyStr.replace. induction s as [| c s IH]; intros H.
  - reflexivity.
  - cbn [PyStr.contains] in H. apply orb_false_elim in H as [Hp Hc].
    cbn [PyStr.replace_from]. rewrite Hp. rewrite (IH Hc). reflexivity.
Qed.

Lemma lstrip_leading_space (pre s : string) :
  PyStr.all_chars PyStr.isspace pre = true ->
  PyStr.lstrip (pre ++ s) = PyStr.lstrip s.
Proof.
  induction pre as [| c pre IH]; intros Hpre.
  - reflexivity.
  - cbn [PyStr.all_chars] in Hpre. apply andb_prop in Hpre as [Hc Hpre].
    change ((String c pre) ++ s) with (String c (pre ++ s)).
    cbn [PyStr.lstrip]. rewrite Hc. exact (IH Hpre).
Qed.

(** The URL of a marker line that starts with the marker (after blanks at
    most) and holds it once: the trimmed text after the marker. *)
Lemma marker_line_url (pre rest : string) :
  PyStr.all_chars PyStr.isspace pre = true ->
  PyStr.contains url_marker rest = false ->
  PyStr.strip (PyStr.replace url_marker "" (pre ++ url_marker ++ rest)) = PyStr.strip rest.
Proof.
  intros Hpre Hrest.
  rewrite (replace_passes_leading_space pre _ Hpre).
  rewrite replace_drops_leading_marker, (replace_without_marker rest Hrest).
  unfold PyStr.strip. rewrite (lstrip_leading_space pre rest Hpre). reflexivity.
Qed.

(** **** Claim C8, as the code has it.
    The document of a loaded file holds the full text of the file as its
    content and the metadata [source], [filename].  The source is the
    first line that contains the marker, with every occurrence of the
    marker deleted and the result trimmed; it is the empty string when no
    line contains the marker.  When that line starts with the marker
    (after blanks at most) and holds it once, the source is the trimmed
    remainder of the line after the marker. *)
Theorem C8_document_of_a_loaded_file (file_name content : string) :
  post_document file_name content
  = {| page_content := content;
       metadata :=
         [("source",
           match find (PyStr.contains url_marker)
                      (PyStr.split (ascii_of_nat 10) content) with
           | Some line => PyStr.strip (PyStr.replace url_marker "" line)
           | None => ""
           end);
          ("filename", file_name)] |}
  /\ (forall pre rest : string,
        find (PyStr.contains url_marker) (PyStr.split (ascii_of_nat 10) content)
        = Some (pre ++ url_marker ++ rest) ->
        PyStr.all_chars PyStr.isspace pre = true ->
        PyStr.contains url_marker rest = false ->
        dict_get "source" (metadata (post_document file_name content)) ""
        = PyStr.strip rest
        /\ dict_get "source" (metadata (post_document file_name content)) ""
           = source_url_as_specified content).
Proof.
  split.
  - unfold post_document. rewrite extract_url_first_marker_line. reflexivity.
  - intros pre rest Hfind Hpre Hrest.
    unfold post_document, source_url_as_specified. simpl.
    rewrite extract_url_first_marker_line, Hfind.
    rewrite (marker_line_url pre rest Hpre Hrest). split; [reflexivity |].
    f_equal. clear Hfind.
    induction pre as [| c pre IH].
    + change ("" ++ url_marker ++ rest) with (url_marker ++ rest).
      assert (Hm : url_marker ++ rest = String "*" ("*URL:**" ++ rest)) by reflexivity.
      rewrite Hm. cbn [remainder_after_marker]. rewrite <- Hm.
      rewrite prefix_app, drop_app. reflexivity.
    + cbn [PyStr.all_chars] in Hpre. apply andb_prop in Hpre as [Hc Hpre].
      change ((String c pre) ++ url_marker ++ rest)
        with (String c (pre ++ url_marker ++ rest)).
      cbn [remainder_after_marker].
      rewrite (marker_starts_no_space c _ Hc). symmetry. rewrite <- (IH Hpre) at 1.
      reflexivity.
Qed.

(** A marker line with text before the marker: the code keeps that text,
    the specification's wording does not. *)
Lemma C8_counterexample :
  dict_get "source" (metadata (post_document "1.md" "see **URL:** http://a")) ""
  = "see  http://a"
  /\ source_url_as_specified "see **URL:** http://a" = "http://a"
  /\ dict_get "source" (metadata (post_document "1.md" "see **URL:** http://a")) ""
     <> source_url_as_specified "see **URL:** http://a".
Proof.
  repeat split; try reflexivity. vm_compute. discriminate.
Qed.

Lemma C8_witness :
  find (PyStr.contains url_marker) (PyStr.split (ascii_of_nat 10) post_7)
  = Some ("" ++ url_marker ++ " https://discourse.onlinedegree.iitm.ac.in/t/5/7")
  /\ dict_get "source" (metadata (post_document "7.md" post_7)) ""
     = "https://discourse.onlinedegree.iitm.ac.in/t/5/7".
Proof.
  split; [reflexivity |].
  exact (proj1 (proj2 (C8_document_of_a_loaded_file "7.md" post_7)
                  "" " https://discourse.onlinedegree.iitm.ac.in/t/5/7"
                  eq_refl eq_refl eq_refl)).
Defined.

(* ===================================================================== *)
(** ** The label of a link *)
(* ===================================================================== *)

Ltac split_ifs :=
  repeat match goal with
         | |- context [if ?b then _ else _] => destruct b
         end.

Lemma format_source_spec (w : World) (source : string) (p : Proc) :
  _format_source_as_link_text w source p = (Ok (link_text w source), p, []).
Proof.
  unfold link_text, _format_source_as_link_text, try_except, bind, Path, io, outcome,
    ret, result_of.
  destruct (path_fault w source); cbn [fst snd]; [reflexivity |].
  split_ifs; reflexivity.
Qed.

(** **** Claim C10, as the code has it.
    Deriving the label of a source is total: it returns a string, raises
    nothing and touches nothing, and returns the source unchanged when
    parsing the source fails.  When parsing succeeds, a source containing
    [course_content] yields [Course Material: ] followed by the file name,
    and a source containing [onlinedegree.iitm.ac.in] but not
    [course_content] yields a label that starts with [Discussion]. *)
Theorem C10_link_text_is_total (w : World) (source : string) (p : Proc) :
  (exists label, _format_source_as_link_text w source p = (Ok label, p, []))
  /\ (forall e, path_fault w source = Some e -> link_text w source = source)
  /\ (path_fault w source = None ->
      PyStr.contains "course_content" source = true ->
      link_text w source = "Course Material: " ++ PosixPath.name source)
  /\ (path_fault w source = None ->
      PyStr.contains "course_content" source = false ->
      PyStr.contains "onlinedegree.iitm.ac.in" source = true ->
      link_text w source
      = (if (2 <=? List.length (PyStr.split "/"%char source))%nat
         then "Discussion: Discourse Post #" ++ PyStr.last_part (PyStr.split "/"%char source)
         else "Discussion Post: " ++ PyStr.last_part (PyStr.split "/"%char source))
      /\ prefix "Discussion" (link_text w source) = true).
Proof.
  split; [eexists; apply format_source_spec |].
  unfold link_text, _format_source_as_link_text, try_except, bind, Path, io, outcome,
    ret, result_of.
  split; [| split].
  - intros e He. rewrite He. reflexivity.
  - intros Hp Hc. rewrite Hp. cbn [fst snd]. rewrite Hc. reflexivity.
  - intros Hp Hc Hd. rewrite Hp, Hc, Hd. cbn [fst snd]. rewrite orb_true_r.
    destruct (2 <=? List.length (PyStr.split "/" source))%nat; split; reflexivity.
Qed.

Lemma C10_witness :
  link_text Examples.calm "https://discourse.onlinedegree.iitm.ac.in/t/5/7"
  = "Discussion: Discourse Post #7"
  /\ link_text Examples.calm "data/course_content/week1.md"
     = "Course Material: week1.md".
Proof.
  split.
  - exact (proj1 (proj2 (proj2 (proj2
             (C10_link_text_is_total Examples.calm
                "https://discourse.onlinedegree.iitm.ac.in/t/5/7" idle_proc)))
             eq_refl eq_refl eq_refl)).
  - exact (proj1 (proj2 (proj2
             (C10_link_text_is_total Examples.calm "data/course_content/week1.md"
                idle_proc)))
             eq_refl eq_refl).
Defined.

(** A course page of the discussion site: it contains both names, and the
    first test of the formatter decides. *)
Lemma C10_counterexample :
  PyStr.contains "onlinedegree.iitm.ac.in"
    "https://onlinedegree.iitm.ac.in/course_content/a.md" = true
  /\ result_of (_format_source_as_link_text Examples.calm
                  "https://onlinedegree.iitm.ac.in/course_content/a.md" idle_proc)
     = Ok "Course Material: a.md"
  /\ prefix "Discussion" "Course Material: a.md" = false.
Proof. repeat split; reflexivity. Qed.

(* ===================================================================== *)
(** ** The steps of the per-question pipeline *)
(* ===================================================================== *)

Lemma append_assoc (a b c : string) : (a ++ b) ++ c = a ++ (b ++ c).
Proof.
  induction a as [| x a IH]; [reflexivity |].
  change (String x ((a ++ b) ++ c) = String x (a ++ b ++ c)). rewrite IH. reflexivity.
Qed.

Lemma append_empty_r (a : string) : a ++ "" = a.
Proof.
  induction a as [| x a IH]; [reflexivity |].
  change (String x (a ++ "") = String x a). rewrite IH. reflexivity.
Qed.

Lemma process_image_spec (w : World) (image_data : option string) (p : Proc) :
  process_image w image_data p = (Ok (image_of w image_data), p, image_calls image_data).
Proof.
  unfold image_of, image_calls, process_image, try_except, bind, call, ret, result_of.
  destruct image_data as [payload |]; [| reflexivity].
  destruct (PyStr.truthy payload); [| reflexivity].
  destruct (image_open w payload); reflexivity.
Qed.

Lemma retrieve_spec (w : World) (settings : Settings) (question : string) (p : Proc) :
  retrieve w settings question p
  = (Ok (retrieved w settings question p), p, retrieve_calls settings question p).
Proof.
  unfold retrieved, retrieve_calls, retrieve, similarity_search, try_except, bind,
    call, ret, read_globals, outcome, result_of.
  destruct (_vector_store (globals p)) as [vs |]; [| reflexivity].
  destruct (search_fault w question); reflexivity.
Qed.

Lemma gather_spec (w : World) (docs : list Document) :
  forall (context : string) (links0 : list Link) (p : Proc),
    gather w docs context links0 p
    = (Ok (context ++ context_of docs, (links0 ++ links_of w docs)%list), p, []).
Proof.
  induction docs as [| doc rest IH]; intros context links0 p.
  - cbn [gather context_of]. unfold links_of, ret. cbn [filter map].
    rewrite append_empty_r, app_nil_r. reflexivity.
  - cbn [gather context_of]. unfold links_of. cbn [filter]. fold (has_source doc).
    unfold has_source at 1.
    destruct (PyStr.truthy (dict_get "source" (metadata doc) "")) eqn:Hsrc.
    + fold (has_source doc). unfold has_source. rewrite Hsrc. cbn [map].
      erewrite bind_ok by apply format_source_spec. cbv beta.
      rewrite IH. unfold result_of, proc_of, calls_of, links_of, link_for. cbn [fst snd app].
      rewrite <- app_assoc, <- append_assoc. cbn [app].
      rewrite !append_assoc. reflexivity.
    + fold (has_source doc). unfold has_source. rewrite Hsrc.
      rewrite IH. unfold links_of. rewrite <- append_assoc, !append_assoc. reflexivity.
Qed.

Lemma generate_spec (w : World) (prompt : string) (image : option Image) (p : Proc) :
  generate w prompt image p
  = (result_of (generate w prompt image p), p, generate_calls p prompt image).
Proof.
  unfold generate_calls, generate, bind, call, raise, read_globals, result_of.
  destruct (_gemini_model (globals p)); reflexivity.
Qed.

(** The whole of [answer_question] in a ready process: the engine's answer
    is decided by the outcome of the generation step alone. *)
Lemma answer_question_ready (w : World) (settings : Settings) (question : string)
    (image_data : option string) (p : Proc) :
  is_ready (globals p) = true ->
  answer_question w settings question image_data p
  = (Ok (match result_of
                 (generate w
                    (_create_prompt question
                       (context_of (retrieved w settings question p)))
                    (image_of w image_data) p) with
         | Ok answer_text =>
             {| answer := answer_text;
                links := links_of w (retrieved w settings question p) |}
         | Raise e => error_answer e
         end),
     p,
     (image_calls image_data ++ retrieve_calls settings question p
      ++ generate_calls p
           (_create_prompt question (context_of (retrieved w settings question p)))
           (image_of w image_data))%list).
Proof.
  intros Hready. unfold answer_question.
  erewrite bind_ok by (unfold read_globals; reflexivity). cbv beta.
  rewrite Hready. cbn [negb].
  set (docs := retrieved w settings question p).
  set (prompt := _create_prompt question (context_of docs)).
  set (image := image_of w image_data).
  assert (Hbody :
      (image <- process_image w image_data ;;
       relevant_docs <- retrieve w settings question ;;
       gathered <- gather w relevant_docs "" [] ;;
       answer_text <- generate w (_create_prompt question (fst gathered)) image ;;
       ret {| answer := answer_text; links := snd gathered |}) p
      = (match result_of (generate w prompt image p) with
         | Ok t => Ok {| answer := t; links := links_of w docs |}
         | Raise e => Raise e
         end, p,
         (image_calls image_data ++ retrieve_calls settings question p
          ++ generate_calls p prompt image)%list)).
  { erewrite bind_ok by apply process_image_spec. cbv beta.
    erewrite bind_ok by apply retrieve_spec. cbv beta.
    erewrite bind_ok by apply gather_spec. cbv beta. cbn [fst snd app].
    fold docs. fold image. change ("" ++ context_of docs) with (context_of docs).
    fold prompt.
    unfold bind. rewrite (generate_spec w prompt image p).
    destruct (result_of (generate w prompt image p)) as [t | e];
      unfold ret, result_of, proc_of, calls_of; cbn [fst snd app];
      rewrite ?app_nil_r; reflexivity. }
  unfold try_except. rewrite Hbody.
  destruct (result_of (generate w prompt image p)) as [t | e];
    unfold ret, result_of, proc_of, calls_of; cbn [fst snd app];
    rewrite ?app_nil_r; reflexivity.
Qed.

(** The whole of [answer_question] in a process that is not ready. *)
Lemma answer_question_not_ready (w : World) (settings : Settings) (question : string)
    (image_data : option string) (p : Proc) :
  is_ready (globals p) = false ->
  answer_question w settings question image_data p = (Raise not_ready_message, p, []).
Proof.
  intros Hready. unfold answer_question, bind, read_globals, raise.
  rewrite Hready. reflexivity.
Qed.

(* ===================================================================== *)
(** ** Properties of [answer_question] in a ready process *)
(* ===================================================================== *)

(** **** Claim C1, as the code has it.
    In a ready process [answer_question] never raises and changes
    nothing.  A failed image decode and a failed retrieval are handled
    where they occur and do not decide the answer: the answer is the
    error answer (the apology followed by the error detail, no links)
    exactly when the generation step raises, and otherwise the generated
    text with the links of the retrieved chunks. *)
Theorem C1_ready_answer_never_raises (w : World) (settings : Settings)
    (question : string) (image_data : option string) (p : Proc) :
  is_ready (globals p) = true ->
  (exists r, result_of (answer_question w settings question image_data p) = Ok r)
  /\ proc_of (answer_question w settings question image_data p) = p
  /\ (forall e,
        result_of (generate w
                     (_create_prompt question
                        (context_of (retrieved w settings question p)))
                     (image_of w image_data) p) = Raise e ->
        result_of (answer_question w settings question image_data p)
        = Ok {| answer := apology ++ e; links := [] |})
  /\ (forall t,
        result_of (generate w
                     (_create_prompt question
                        (context_of (retrieved w settings question p)))
                     (image_of w image_data) p) = Ok t ->
        result_of (answer_question w settings question image_data p)
        = Ok {| answer := t; links := links_of w (retrieved w settings question p) |}).
Proof.
  intros Hready.
  rewrite (answer_question_ready w settings question image_data p Hready).
  unfold result_of at 1 3 5, proc_of. cbn [fst snd].
  split; [eexists; reflexivity |].
  split; [reflexivity |].
  split.
  - intros e He. rewrite He. reflexivity.
  - intros t Ht. rewrite Ht. reflexivity.
Qed.

Lemma C1_witness :
  is_ready (globals (Examples.ready_proc None)) = true
  /\ result_of (answer_question
                  (Examples.world None Examples.bad_image
                     (fun _ _ => Raise "429 quota exceeded") None)
                  Examples.settings "What is a dict?" None (Examples.ready_proc None))
     = Ok {| answer := apology ++ "429 quota exceeded"; links := [] |}.
Proof.
  split; [reflexivity |].
  exact (proj1 (proj2 (proj2
           (C1_ready_answer_never_raises
              (Examples.world None Examples.bad_image
                 (fun _ _ => Raise "429 quota exceeded") None)
              Examples.settings "What is a dict?" None (Examples.ready_proc None)
              eq_refl)))
           "429 quota exceeded" eq_refl).
Defined.

(** The image decode raises, and the answer is the generated text with a
    link: not the error answer, and not without links. *)
Lemma C1_counterexample :
  is_ready (globals (Examples.ready_proc
                       (Some [Examples.chunk discussion_7 "Python dicts are hash maps."])))
  = true
  /\ image_open Examples.calm "not-base64" = Raise "cannot identify image file"
  /\ result_of (answer_question Examples.calm Examples.settings "What is a dict?"
                  (Some "not-base64")
                  (Examples.ready_proc
                     (Some [Examples.chunk discussion_7 "Python dicts are hash maps."])))
     = Ok {| answer := "An answer.";
             links := [{| url := discussion_7; text := "Discussion: Discourse Post #7" |}] |}
  /\ ~ (exists e,
          result_of (answer_question Examples.calm Examples.settings "What is a dict?"
                       (Some "not-base64")
                       (Examples.ready_proc
                          (Some [Examples.chunk discussion_7
                                   "Python dicts are hash maps."])))
          = Ok {| answer := apology ++ e; links := [] |}).
Proof.
  repeat split; try reflexivity.
  intros [e He]. vm_compute in He. discriminate He.
Qed.

Lemma retrieved_nothing (w : World) (settings : Settings) (question : string)
    (p : Proc) :
  _vector_store (globals p) = None
  \/ _vector_store (globals p) = Some []
  \/ (exists e, search_fault w question = Some e) ->
  retrieved w settings question p = [].
Proof.
  unfold retrieved, retrieve, similarity_search, try_except, bind, call, ret,
    read_globals, outcome, result_of.
  intros [Hnone | [Hempty | [e He]]].
  - rewrite Hnone. reflexivity.
  - rewrite Hempty. cbn [nearest_first fold_right]. rewrite firstn_nil.
    destruct (search_fault w question); reflexivity.
  - rewrite He. destruct (_vector_store (globals p)); reflexivity.
Qed.

Lemma apology_not_empty (e : string) : apology ++ e <> "".
Proof. unfold apology. discriminate. Qed.

(** **** Claim C4, as the code has it.
    In a ready process whose index is missing or empty, or whose search
    raises, [answer_question] goes on with no retrieved chunk and returns,
    without raising, an answer with no links: the text the generator gives
    for the prompt without context, or the error answer when generation
    raises.  The answer is empty only if the generator returned the
    empty text. *)
Theorem C4_answer_without_index (w : World) (settings : Settings)
    (question : string) (image_data : option string) (p : Proc) :
  is_ready (globals p) = true ->
  _vector_store (globals p) = None
  \/ _vector_store (globals p) = Some []
  \/ (exists e, search_fault w question = Some e) ->
  retrieved w settings question p = []
  /\ exists r,
       result_of (answer_question w settings question image_data p) = Ok r
       /\ links r = []
       /\ (forall t,
             result_of (generate w (_create_prompt question "")
                          (image_of w image_data) p) = Ok t ->
             answer r = t)
       /\ (answer r = "" ->
           result_of (generate w (_create_prompt question "")
                        (image_of w image_data) p) = Ok "").
Proof.
  intros Hready Hindex.
  pose proof (retrieved_nothing w settings question p Hindex) as Hdocs.
  split; [exact Hdocs |].
  rewrite (answer_question_ready w settings question image_data p Hready).
  rewrite Hdocs. cbn [context_of]. unfold links_of. cbn [filter map].
  unfold result_of at 1. cbn [fst].
  eexists. split; [reflexivity |].
  destruct (result_of (generate w (_create_prompt question "")
                         (image_of w image_data) p)) as [t | e]; cbn [links answer error_answer].
  - split; [reflexivity |]. split.
    + intros t' Ht'. injection Ht' as Ht'. exact Ht'.
    + intros Ht. rewrite Ht. reflexivity.
  - split; [reflexivity |]. split.
    + intros t' Ht'. discriminate Ht'.
    + intros Hempty. exfalso. exact (apology_not_empty e Hempty).
Qed.

Lemma C4_witness :
  is_ready (globals (Examples.ready_proc None)) = true
  /\ retrieved Examples.calm Examples.settings "What is a dict?" (Examples.ready_proc None)
     = []
  /\ result_of (answer_question Examples.calm Examples.settings "What is a dict?" None
                  (Examples.ready_proc None))
     = Ok {| answer := "An answer."; links := [] |}.
Proof.
  split; [reflexivity |].
  split.
  - exact (proj1 (C4_answer_without_index Examples.calm Examples.settings
                    "What is a dict?" None (Examples.ready_proc None)
                    eq_refl (or_introl eq_refl))).
  - reflexivity.
Defined.

(** A generator that returns the empty text: the answer is empty. *)
Lemma C4_counterexample :
  is_ready (globals (Examples.ready_proc None)) = true
  /\ _vector_store (globals (Examples.ready_proc None)) = None
  /\ result_of (answer_question
                  (Examples.world None Examples.bad_image (Examples.says "") None)
                  Examples.settings "What is a dict?" None (Examples.ready_proc None))
     = Ok {| answer := ""; links := [] |}.
Proof. repeat split; reflexivity. Qed.

(** **** Claim C5, as the code has it.
    When the generation step returns a text, the links of the answer are
    one entry for every retrieved chunk whose source is a non-empty
    string, in the order of retrieval, repeated sources repeated; a chunk
    with an empty or absent source gives no entry.  (When generation
    raises, the answer is the error answer, which has no links.) *)
Theorem C5_links_follow_retrieved_chunks (w : World) (settings : Settings)
    (question : string) (image_data : option string) (p : Proc)
    (docs : list Document) (t : string) :
  is_ready (globals p) = true ->
  retrieved w settings question p = docs ->
  result_of (generate w (_create_prompt question (context_of docs))
               (image_of w image_data) p) = Ok t ->
  result_of (gather w docs "" [] p)
  = Ok (context_of docs,
        map (fun doc => {| url := dict_get "source" (metadata doc) "";
                           text := link_text w (dict_get "source" (metadata doc) "") |})
            (filter has_source docs))
  /\ result_of (answer_question w settings question image_data p)
     = Ok {| answer := t;
             links :=
               map (fun doc => {| url := dict_get "source" (metadata doc) "";
                                  text := link_text w (dict_get "source" (metadata doc) "") |})
                   (filter has_source docs) |}.
Proof.
  intros Hready Hdocs Hgen. split.
  - rewrite gather_spec. reflexivity.
  - rewrite (answer_question_ready w settings question image_data p Hready).
    rewrite Hdocs. unfold result_of at 1. cbn [fst]. rewrite Hgen. reflexivity.
Qed.

Lemma C5_witness :
  retrieved Examples.calm four_settings "q" (Examples.ready_proc (Some aab_store))
  = aab_store
  /\ result_of (answer_question Examples.calm four_settings "q" None
                  (Examples.ready_proc (Some aab_store)))
     = Ok {| answer := "An answer.";
             links :=
               [{| url := discussion_7; text := "Discussion: Discourse Post #7" |};
                {| url := discussion_7; text := "Discussion: Discourse Post #7" |};
                {| url := course_week1; text := "Course Material: week1.md" |}] |}.
Proof.
  split; [reflexivity |].
  exact (proj2 (C5_links_follow_retrieved_chunks Examples.calm four_settings "q" None
                  (Examples.ready_proc (Some aab_store)) aab_store "An answer."
                  eq_refl eq_refl eq_refl)).
Defined.

(** The chunks A, A, B are retrieved and generation raises: the answer
    has no links. *)
Lemma C5_counterexample :
  retrieved (Examples.world None Examples.bad_image
               (fun _ _ => Raise "429 quota exceeded") None)
    four_settings "q" (Examples.ready_proc (Some aab_store))
  = aab_store
  /\ List.length (filter has_source aab_store) = 3
  /\ result_of (answer_question
                  (Examples.world None Examples.bad_image
                     (fun _ _ => Raise "429 quota exceeded") None)
                  four_settings "q" None (Examples.ready_proc (Some aab_store)))
     = Ok {| answer := apology ++ "429 quota exceeded"; links := [] |}.
Proof. repeat split; reflexivity. Qed.



(* ===================================================================== *)
(** ** A Hoare logic for engine code *)
(* ===================================================================== *)

Section Hoare.

Context {A : Type}.

Lemma keeps_ret (I : Proc -> Prop) (a : A) : keeps I (ret a).
Proof. intros p Hp. exact Hp. Qed.

Lemma keeps_raise (I : Proc -> Prop) (e : string) : keeps I (@raise A e).
Proof. intros p Hp. exact Hp. Qed.

Lemma keeps_io (I : Proc -> Prop) (r : Result A) : keeps I (io r).
Proof. intros p Hp. exact Hp. Qed.

Lemma keeps_call (I : Proc -> Prop) (c : Call) (r : Result A) : keeps I (call c r).
Proof. intros p Hp. exact Hp. Qed.

Lemma hoare_try (P : Proc -> Prop) (m : M A) (h : string -> M A)
    (Q R : Result A -> Proc -> Prop) :
  hoare P m Q ->
  (forall a p, Q (Ok a) p -> R (Ok a) p) ->
  (forall e, hoare (Q (Raise e)) (h e) R) ->
  hoare P (try_except m h) R.
Proof.
  intros Hm Hok Hh p Hp. specialize (Hm p Hp).
  unfold try_except, result_of, proc_of in *.
  destruct (m p) as [[[a | e] p1] c1]; cbn [fst snd] in *.
  - apply Hok, Hm.
  - specialize (Hh e p1 Hm). unfold result_of, proc_of in Hh.
    destruct (h e p1) as [[r p2] c2]. exact Hh.
Qed.

Lemma keeps_try (I : Proc -> Prop) (m : M A) (h : string -> M A) :
  keeps I m -> (forall e, keeps I (h e)) -> keeps I (try_except m h).
Proof.
  intros Hm Hh. apply (hoare_try I m h (fun _ p => I p)); auto.
Qed.

End Hoare.

Lemma keeps_read_globals (I : Proc -> Prop) : keeps I read_globals.
Proof. intros p Hp. exact Hp. Qed.

Lemma keeps_read_disk (I : Proc -> Prop) : keeps I read_disk.
Proof. intros p Hp. exact Hp. Qed.

Lemma keeps_write_globals (I : Proc -> Prop) (f : Globals -> Globals) :
  (forall p, I p -> I {| globals := f (globals p); index_dirs := index_dirs p |}) ->
  keeps I (write_globals f).
Proof. intros H p Hp. apply H, Hp. Qed.

Lemma keeps_write_disk (I : Proc -> Prop)
    (f : list (string * FAISS) -> list (string * FAISS)) :
  (forall p, I p -> I {| globals := globals p; index_dirs := f (index_dirs p) |}) ->
  keeps I (write_disk f).
Proof. intros H p Hp. apply H, Hp. Qed.

Lemma hoare_bind {A B : Type} (P : Proc -> Prop) (m : M A) (k : A -> M B)
    (Q : Result A -> Proc -> Prop) (R : Result B -> Proc -> Prop) :
  hoare P m Q ->
  (forall a, hoare (Q (Ok a)) (k a) R) ->
  (forall e p, Q (Raise e) p -> R (Raise e) p) ->
  hoare P (bind m k) R.
Proof.
  intros Hm Hk Hraise p Hp. specialize (Hm p Hp).
  unfold bind, result_of, proc_of in *.
  destruct (m p) as [[[a | e] p1] c1]; cbn [fst snd] in *.
  - specialize (Hk a p1 Hm). unfold result_of, proc_of in Hk.
    destruct (k a p1) as [[r p2] c2]. exact Hk.
  - apply Hraise, Hm.
Qed.

Lemma keeps_bind {A B : Type} (I : Proc -> Prop) (m : M A) (k : A -> M B) :
  keeps I m -> (forall a, keeps I (k a)) -> keeps I (bind m k).
Proof.
  intros Hm Hk. apply (hoare_bind I m k (fun _ p => I p)); auto.
Qed.

(** After a part that keeps [I], the rest decides. *)
Lemma hoare_after {A B : Type} (I : Proc -> Prop) (m : M A) (k : A -> M B)
    (R : Result B -> Proc -> Prop) :
  keeps I m ->
  (forall a, hoare I (k a) R) ->
  (forall e p, I p -> R (Raise e) p) ->
  hoare I (bind m k) R.
Proof.
  intros Hm Hk Hraise. apply (hoare_bind I m k (fun _ p => I p)); auto.
Qed.

Lemma load_files_keeps (I : Proc -> Prop) (w : World) (dir : string)
    (md_files : list string) (documents : list Document) :
  keeps I (load_files w dir md_files documents).
Proof.
  intros p Hp. rewrite load_files_spec. exact Hp.
Qed.

Lemma load_documents_keeps (I : Proc -> Prop) (w : World) (settings : Settings) :
  keeps I (_load_documents w settings).
Proof.
  unfold _load_documents.
  apply keeps_try; [| intros e; apply keeps_ret].
  apply keeps_bind; [apply keeps_io |].
  intros [names |]; [apply load_files_keeps | apply keeps_ret].
Qed.

(** Breaks a computation built from binds, handlers and branches into
    its primitive steps. *)
Ltac keeps_steps :=
  repeat first
    [ apply load_documents_keeps
    | apply keeps_ret | apply keeps_raise | apply keeps_io | apply keeps_call
    | apply keeps_read_globals | apply keeps_read_disk
    | apply keeps_bind; [| intro]
    | apply keeps_try; [| intro]
    | match goal with
      | |- keeps _ (match ?x with _ => _ end) => destruct x
      end ].

(* ===================================================================== *)
(** ** The flags of the initialization *)
(* ===================================================================== *)

Lemma get_embedding_model_keeps_flags (f : bool * option string) (w : World) :
  keeps (fun p => flags p = f) (get_embedding_model w).
Proof.
  unfold get_embedding_model. keeps_steps.
  all: apply keeps_write_globals; intros p Hp; exact Hp.
Qed.

Lemma get_gemini_model_keeps_flags (f : bool * option string) (w : World)
    (api_key model_name : string) :
  keeps (fun p => flags p = f) (get_gemini_model w api_key model_name).
Proof.
  unfold get_gemini_model. keeps_steps.
  all: apply keeps_write_globals; intros p Hp; exact Hp.
Qed.

Lemma get_vector_store_keeps_flags (f : bool * option string) (w : World)
    (path : string) (embedding_model : option EmbeddingModel) :
  keeps (fun p => flags p = f) (get_vector_store w path embedding_model).
Proof.
  unfold get_vector_store. keeps_steps.
  all: apply keeps_write_globals; intros p Hp; exact Hp.
Qed.

(** [initialize_in_background] writes one flag, once: the completion flag
    when its body returns, the error message when its body raises. *)
Lemma initialization_writes_one_flag (w : World) (settings : Settings)
    (complete : bool) (err : option string) :
  hoare (fun q => flags q = (complete, err))
    (initialize_in_background w settings)
    (fun _ q => flags q = (true, err) \/ exists e, flags q = (complete, Some e)).
Proof.
  unfold initialize_in_background.
  apply (hoare_try _ _ _
           (fun r q => match r with
                       | Ok _ => flags q = (true, err)
                       | Raise _ => flags q = (complete, err)
                       end)).
  - apply hoare_after; [apply get_embedding_model_keeps_flags | intros _ | auto].
    apply hoare_after; [apply get_gemini_model_keeps_flags | intros _ | auto].
    apply hoare_after; [apply keeps_read_globals | intros g | auto].
    apply hoare_after; [apply get_vector_store_keeps_flags | intros vs | auto].
    apply hoare_after; [| intros _ | auto].
    + keeps_steps.
      all: apply keeps_write_disk; intros q Hq; exact Hq.
    + intros q Hq. unfold flags in Hq. injection Hq as Hc He.
      unfold write_globals, result_of, proc_of, flags. cbn. rewrite He. reflexivity.
  - intros a q Hq. left. exact Hq.
  - intros e q Hq. unfold flags in Hq. injection Hq as Hc He.
    right. exists e. unfold write_globals, result_of, proc_of, flags. cbn.
    rewrite Hc. reflexivity.
Qed.

Lemma initialization_flags (w : World) (settings : Settings) (p : Proc) :
  flags (proc_of (initialize_in_background w settings p)) = (true, snd (flags p))
  \/ (exists e,
        flags (proc_of (initialize_in_background w settings p))
        = (fst (flags p), Some e)).
Proof.
  exact (initialization_writes_one_flag w settings (fst (flags p)) (snd (flags p))
           p eq_refl).
Qed.

Lemma answer_question_keeps_proc (w : World) (settings : Settings) (question : string)
    (image_data : option string) (p : Proc) :
  proc_of (answer_question w settings question image_data p) = p.
Proof.
  destruct (is_ready (globals p)) eqn:Hready.
  - rewrite (answer_question_ready _ _ _ _ _ Hready). reflexivity.
  - rewrite (answer_question_not_ready _ _ _ _ _ Hready). reflexivity.
Qed.

(** The state of the specification, read from the two flags. *)
Lemma current_state_spec (g : Globals) :
  current_state g
  = match _initialization_error g with
    | Some (String c m) => Failed (String c m)
    | _ => if _initialization_complete g then Ready else Initializing
    end.
Proof.
  unfold current_state, get_initialization_status, error_truthy.
  destruct (_initialization_error g) as [[| c m] |]; cbn [PyStr.truthy];
    try reflexivity; destruct (_initialization_complete g); reflexivity.
Qed.

Lemma current_state_of_flags (p q : Proc) :
  flags p = flags q -> current_state (globals p) = current_state (globals q).
Proof.
  unfold flags. intros H. injection H as Hc He.
  rewrite !current_state_spec, Hc, He. reflexivity.
Qed.

Lemma health_check_spec (g : Globals) : health_check g = render (current_state g).
Proof.
  rewrite current_state_spec.
  unfold health_check, get_initialization_status, error_truthy.
  destruct (_initialization_error g) as [[| c m] |]; cbn [PyStr.truthy];
    try reflexivity; destruct (_initialization_complete g); reflexivity.
Qed.







(* ===================================================================== *)
(** ** The state machine of the service *)
(* ===================================================================== *)

Module ServiceFacts.

Import Service.

Lemma invariant_boot (disk : list (string * FAISS)) : invariant (boot disk).
Proof. split; intros H; [reflexivity | discriminate H]. Qed.

Lemma invariant_step (settings : Settings) (s s' : State) :
  invariant s -> step settings s s' -> invariant s'.
Proof.
  intros [Hpending Hflags] Hstep.
  destruct Hstep as [w s Hp | s | w question image_data s].
  - split; cbn [init_thread_pending proc]; [discriminate |].
    specialize (Hpending Hp).
    destruct (initialization_flags w settings (proc s)) as [H | [e H]];
      rewrite Hpending in H; unfold flags in H; cbn [fst snd] in H;
      injection H as Hc He; intros Hcomplete; congruence.
  - split; assumption.
  - split; cbn [init_thread_pending proc];
      rewrite answer_question_keeps_proc; assumption.
Qed.

Lemma invariant_steps (settings : Settings) (s s' : State) :
  steps settings s s' -> invariant s -> invariant s'.
Proof.
  induction 1 as [s | s1 s2 s3 Hstep _ IH]; intros Hinv; [exact Hinv |].
  apply IH, (invariant_step settings s1 s2 Hinv Hstep).
Qed.

Lemma invariant_reachable (settings : Settings) (disk : list (string * FAISS))
    (s : State) :
  reachable settings disk s -> invariant s.
Proof.
  intros H. exact (invariant_steps settings _ _ H (invariant_boot disk)).
Qed.


(** Once the thread has run, the flags stay as they are. *)
Lemma frozen (settings : Settings) (s s' : State) :
  steps settings s s' ->
  init_thread_pending s = false ->
  flags (proc s') = flags (proc s) /\ init_thread_pending s' = false.
Proof.
  induction 1 as [s | s1 s2 s3 Hstep _ IH]; intros Hdone; [split; auto |].
  assert (H12 : flags (proc s2) = flags (proc s1) /\ init_thread_pending s2 = false).
  { destruct Hstep as [w s Hp | s | w question image_data s].
    - congruence.
    - split; auto.
    - cbn [proc init_thread_pending]. rewrite answer_question_keeps_proc. split; auto. }
  destruct H12 as [Hf Hp]. destruct (IH Hp) as [Hf' Hp'].
  split; [congruence | exact Hp'].
Qed.

Lemma state_of_flags (s s' : State) :
  flags (proc s') = flags (proc s) -> state_of s' = state_of s.
Proof. intros H. apply current_state_of_flags, H. Qed.


Lemma ready_iff_complete (s : State) :
  invariant s ->
  (state_of s = Ready <-> is_ready (globals (proc s)) = true).
Proof.
  intros [_ Hflags]. unfold state_of, is_ready. rewrite current_state_spec.
  split.
  - destruct (_initialization_error (globals (proc s))) as [[| c m] |];
      destruct (_initialization_complete (globals (proc s)));
      intros H; try reflexivity; discriminate H.
  - intros H. rewrite (Hflags H), H. reflexivity.
Qed.



End ServiceFacts.







(** An initialization that fails with an exception whose message is empty
    (a bare [MemoryError()] or [AssertionError()]): the stored message is
    falsy, and the health query goes on reporting [initializing]. *)
Example failure_with_an_empty_message :
  flags (proc_of (initialize_in_background
                    {| embeddings_fault := Some "";
                       gemini_fault := gemini_fault Examples.calm;
                       list_dir := list_dir Examples.calm;
                       read_text := read_text Examples.calm;
                       split_documents := split_documents Examples.calm;
                       mkdir_fault := mkdir_fault Examples.calm;
                       faiss_build_fault := faiss_build_fault Examples.calm;
                       faiss_save_fault := faiss_save_fault Examples.calm;
                       faiss_load_fault := faiss_load_fault Examples.calm;
                       search_fault := search_fault Examples.calm;
                       distance := distance Examples.calm;
                       image_open := image_open Examples.calm;
                       generate_content := generate_content Examples.calm;
                       path_fault := path_fault Examples.calm |}
                    Examples.settings (Service.proc (Service.boot []))))
  = (false, Some "")
  /\ health_check
       (set_initialization_error (Some "") module_globals)
     = {| status := "initializing"; error := None |}.
Proof. split; reflexivity. Qed.

(* ===================================================================== *)
(** ** Starting without a persisted index *)
(* ===================================================================== *)

Lemma hoare_pre {A : Type} (P P' : Proc -> Prop) (m : M A)
    (Q : Result A -> Proc -> Prop) :
  (forall p, P p -> P' p) -> hoare P' m Q -> hoare P m Q.
Proof. intros HP H p Hp. apply H, HP, Hp. Qed.

Lemma get_vector_store_finds_nothing (w : World) (path : string)
    (embedding_model : option EmbeddingModel) :
  hoare (no_index_anywhere path) (get_vector_store w path embedding_model)
    (fun r q => no_index_in_memory q /\ r = Ok None).
Proof.
  intros p [Hmem Hdisk].
  unfold get_vector_store, bind, read_globals, read_disk, write_globals, ret,
    result_of, proc_of, no_index_in_memory.
  rewrite Hmem. cbn. rewrite Hdisk. cbn. split; reflexivity.
Qed.

(** Whatever the libraries do: a process that starts with no index in
    memory and none on disk ends its initialization with the module global
    [_vector_store] still unset.  The index it may have built is on disk
    only. *)
Lemma fresh_build_leaves_the_global_unset (w : World) (settings : Settings) :
  hoare (no_index_anywhere (VECTOR_DB_PATH settings))
    (initialize_in_background w settings)
    (fun _ q => no_index_in_memory q).
Proof.
  unfold initialize_in_background.
  apply (hoare_try _ _ _ (fun _ q => no_index_in_memory q)).
  - apply hoare_after; [| intros _ | intros e p [H _]; exact H].
    { unfold get_embedding_model. keeps_steps.
      all: apply keeps_write_globals; intros p Hp; exact Hp. }
    apply hoare_after; [| intros _ | intros e p [H _]; exact H].
    { unfold get_gemini_model. keeps_steps.
      all: apply keeps_write_globals; intros p Hp; exact Hp. }
    apply hoare_after; [apply keeps_read_globals | intros g | intros e p [H _]; exact H].
    apply (hoare_bind _ _ _ (fun r q => no_index_in_memory q /\ r = Ok None)).
    + apply get_vector_store_finds_nothing.
    + intros [vs |]; [intros q [_ Hsome]; discriminate Hsome |].
      apply (hoare_pre _ no_index_in_memory); [intros q [Hq _]; exact Hq |].
      change (keeps no_index_in_memory
                ((documents <- _load_documents w settings ;;
                  match documents with
                  | [] => ret tt
                  | _ :: _ =>
                      splits <- io (split_documents w (CHUNK_SIZE settings)
                                      (CHUNK_OVERLAP settings) documents) ;;
                      io (outcome (mkdir_fault w (VECTOR_DB_PATH settings)) tt) ;;
                      local_vector_store <-
                        io (outcome (faiss_build_fault w splits) splits) ;;
                      io (outcome (faiss_save_fault w (VECTOR_DB_PATH settings)) tt) ;;
                      write_disk (cons (VECTOR_DB_PATH settings, local_vector_store))
                  end) ;;
                 write_globals (set_initialization_complete true))).
      keeps_steps.
      all: first [ apply keeps_write_disk | apply keeps_write_globals ];
        intros q Hq; exact Hq.
    + intros e q [Hq _]. exact Hq.
  - intros a q Hq. exact Hq.
  - intros e. apply keeps_write_globals. intros q Hq. exact Hq.
Qed.

(** **** Claim C3, evaluated on the code.
    With no persisted index, the initialization loads the post, builds an
    index from it and saves it, and the state becomes ready; but the index
    is bound to a name local to [initialize_in_background], the module
    global stays unset, and the question asked after warm-up is answered
    with no retrieval at all: the links are empty, not the one link the
    specification expects. *)
Theorem C3_fresh_index_is_saved_but_not_served :
  lookup_dir (VECTOR_DB_PATH Examples.settings) (index_dirs first_start)
  = Some [{| page_content := dict_post;
             metadata := [("source", "https://example.com/t/5/7");
                          ("filename", "7.md")] |}]
  /\ current_state (globals first_start) = Ready
  /\ _vector_store (globals first_start) = None
  /\ answer_question dict_world Examples.settings "What is a Python dict?" None first_start
     = (Ok {| answer := "A dict is a hash map."; links := [] |},
        first_start,
        [Generate (_create_prompt "What is a Python dict?" "") None]).
Proof. repeat split; reflexivity. Qed.

(** The sibling path: the next start of the process finds the saved index,
    [get_vector_store] binds it to the module global, and the same
    question gets the link. *)
Example second_start_serves_the_saved_index :
  result_of
    (answer_question dict_world Examples.settings "What is a Python dict?" None
       (proc_of (initialize_in_background dict_world Examples.settings
                   (Service.proc (Service.boot (index_dirs first_start))))))
  = Ok {| answer := "A dict is a hash map.";
          links := [{| url := "https://example.com/t/5/7"; text := "7" |}] |}.
Proof. reflexivity. Qed.

(* ===================================================================== *)
(** ** The singletons *)
(* ===================================================================== *)

(** **** X1.
    The embedding model is loaded once: after a call that returned a
    model, every later call returns that model and changes nothing,
    whatever the library would do now.  A call that raises has cached
    nothing: the process is as before, so that the next call tries
    again. *)
Theorem X1_embedding_model_is_loaded_once (w1 w2 : World) (p : Proc) :
  (forall m,
     result_of (get_embedding_model w1 p) = Ok m ->
     get_embedding_model w2 (proc_of (get_embedding_model w1 p))
     = (Ok m, proc_of (get_embedding_model w1 p), []))
  /\ (forall e,
        result_of (get_embedding_model w1 p) = Raise e ->
        proc_of (get_embedding_model w1 p) = p
        /\ _embedding_model (globals p) = None
        /\ embeddings_fault w1 = Some e).
Proof.
  unfold get_embedding_model, try_except, bind, io, outcome, read_globals,
    write_globals, ret, raise, result_of, proc_of.
  destruct (_embedding_model (globals p)) as [m0 |] eqn:Hm; cbn.
  - rewrite Hm. split.
    + intros m H. injection H as H. subst m. reflexivity.
    + intros e H. discriminate H.
  - destruct (embeddings_fault w1) as [e1 |]; cbn; split.
    + intros m H. discriminate H.
    + intros e H. injection H as H. subst e. auto.
    + intros m H. injection H as H. subst m. reflexivity.
    + intros e H. discriminate H.
Qed.

Lemma X1_witness :
  get_embedding_model
    (Examples.world None Examples.bad_image (Examples.says "") None)
    (proc_of (get_embedding_model Examples.calm idle_proc))
  = (Ok (HuggingFaceEmbeddings "sentence-transformers/all-MiniLM-L6-v2" "./model_cache"),
     proc_of (get_embedding_model Examples.calm idle_proc), []).
Proof.
  exact (proj1 (X1_embedding_model_is_loaded_once Examples.calm
                  (Examples.world None Examples.bad_image (Examples.says "") None)
                  idle_proc)
           _ eq_refl).
Defined.

(** **** X2.
    The generative model is a singleton too, and the singleton ignores its
    arguments once it exists: after a call that returned a model, a call
    with another key or another model name returns the first model. *)
Theorem X2_gemini_model_ignores_later_arguments (w1 w2 : World)
    (api_key1 model_name1 api_key2 model_name2 : string) (p : Proc)
    (m : GeminiModel) :
  result_of (get_gemini_model w1 api_key1 model_name1 p) = Ok m ->
  get_gemini_model w2 api_key2 model_name2
    (proc_of (get_gemini_model w1 api_key1 model_name1 p))
  = (Ok m, proc_of (get_gemini_model w1 api_key1 model_name1 p), [])
  /\ (_gemini_model (globals p) = None -> m = GenerativeModel model_name1).
Proof.
  unfold get_gemini_model, try_except, bind, io, outcome, read_globals,
    write_globals, ret, raise, result_of, proc_of.
  destruct (_gemini_model (globals p)) as [m0 |] eqn:Hm; cbn.
  - rewrite Hm. intros H. injection H as H. subst m. split; [reflexivity |].
    intros Hnone. discriminate Hnone.
  - destruct (gemini_fault w1 api_key1 model_name1) as [e1 |]; cbn; intros H.
    + discriminate H.
    + injection H as H. subst m. split; reflexivity.
Qed.

Lemma X2_witness :
  get_gemini_model Examples.calm "other-key" "gemini-1.5-pro"
    (proc_of (get_gemini_model Examples.calm "key" "gemini-2.0-flash" idle_proc))
  = (Ok (GenerativeModel "gemini-2.0-flash"),
     proc_of (get_gemini_model Examples.calm "key" "gemini-2.0-flash" idle_proc), []).
Proof.
  exact (proj1 (X2_gemini_model_ignores_later_arguments Examples.calm Examples.calm
                  "key" "gemini-2.0-flash" "other-key" "gemini-1.5-pro" idle_proc
                  (GenerativeModel "gemini-2.0-flash") eq_refl)).
Defined.

(** **** X3.
    The vector index is a singleton as well.  A call of
    [get_vector_store] made while an index is in memory returns that index
    and changes nothing, whatever path it is given and whatever the disk
    holds; so after a call that returned an index, a later call returns
    the same index, also for another path.  With no index in memory and an
    index directory at the path, a load that raises is caught: the call
    returns nothing and leaves the module global unset, and a load that
    returns binds the index to the module global. *)
Theorem X3_vector_store_in_memory_is_returned (w1 w2 : World) (path1 path2 : string)
    (embedding_model1 embedding_model2 : option EmbeddingModel) (p : Proc)
    (vs stored : FAISS) :
  (_vector_store (globals p) = Some vs ->
   get_vector_store w2 path2 embedding_model2 p = (Ok (Some vs), p, []))
  /\ (result_of (get_vector_store w1 path1 embedding_model1 p) = Ok (Some vs) ->
      get_vector_store w2 path2 embedding_model2
        (proc_of (get_vector_store w1 path1 embedding_model1 p))
      = (Ok (Some vs), proc_of (get_vector_store w1 path1 embedding_model1 p), []))
  /\ (_vector_store (globals p) = None ->
      lookup_dir path1 (index_dirs p) = Some stored ->
      result_of (get_vector_store w1 path1 embedding_model1 p)
      = Ok (match faiss_load_fault w1 path1 with
            | Some _ => None
            | None => Some stored
            end)
      /\ _vector_store (globals (proc_of (get_vector_store w1 path1 embedding_model1 p)))
         = match faiss_load_fault w1 path1 with
           | Some _ => None
           | None => Some stored
           end).
Proof.
  assert (Hmemory : forall (w : World) (path : string)
                      (embedding_model : option EmbeddingModel) (q : Proc),
             _vector_store (globals q) = Some vs ->
             get_vector_store w path embedding_model q = (Ok (Some vs), q, [])).
  { intros w path embedding_model q Hq.
    unfold get_vector_store, bind, read_globals, ret.
    rewrite Hq. cbn. rewrite Hq. reflexivity. }
  split; [apply Hmemory |]. split.
  - intros Hresult. apply Hmemory.
    revert Hresult.
    unfold get_vector_store, try_except, bind, io, outcome, read_globals, read_disk,
      write_globals, ret, result_of, proc_of.
    destruct (_vector_store (globals p)) as [vs0 |] eqn:Hvs; cbn.
    + rewrite Hvs. intros H. congruence.
    + destruct (lookup_dir path1 (index_dirs p)) as [stored0 |]; cbn.
      * destruct (faiss_load_fault w1 path1); cbn; intros H; congruence.
      * intros H. discriminate H.
  - intros Hnone Hdisk.
    unfold get_vector_store, try_except, bind, io, outcome, read_globals, read_disk,
      write_globals, ret, result_of, proc_of.
    rewrite Hnone. cbn. rewrite Hdisk.
    destruct (faiss_load_fault w1 path1); cbn; split; reflexivity.
Qed.

Lemma X3_witness :
  get_vector_store Examples.calm "./data/another_store" None
    (Examples.ready_proc (Some aab_store))
  = (Ok (Some aab_store), Examples.ready_proc (Some aab_store), [])
  /\ result_of
       (get_vector_store unloadable_index_world "./data/vector_store" None
          {| globals := module_globals;
             index_dirs := [("./data/vector_store", aab_store)] |})
     = Ok None.
Proof.
  split.
  - exact (proj1 (X3_vector_store_in_memory_is_returned Examples.calm Examples.calm
                    "./data/vector_store" "./data/another_store" None None
                    (Examples.ready_proc (Some aab_store)) aab_store aab_store)
             eq_refl).
  - exact (proj1
             (proj2 (proj2 (X3_vector_store_in_memory_is_returned
                              unloadable_index_world Examples.calm
                              "./data/vector_store" "./data/another_store" None None
                              {| globals := module_globals;
                                 index_dirs := [("./data/vector_store", aab_store)] |}
                              aab_store aab_store))
                eq_refl eq_refl)).
Defined.

(* ===================================================================== *)
(** ** Runs of the background initialization *)
(* ===================================================================== *)

Lemma load_documents_result (w : World) (settings : Settings) (p : Proc) :
  _load_documents w settings p
  = (Ok (match list_dir w (DISCOURSE_DATA_PATH settings) with
         | Ok (Some names) => loaded w (DISCOURSE_DATA_PATH settings) (glob_md names)
         | Ok None => []
         | Raise _ => []
         end), p, []).
Proof.
  unfold _load_documents.
  destruct (list_dir w (DISCOURSE_DATA_PATH settings)) as [[names |] | e] eqn:Hdir.
  - apply try_ok. erewrite bind_ok by (unfold io; reflexivity).
    cbv beta iota. rewrite load_files_spec. reflexivity.
  - apply try_ok. erewrite bind_ok by (unfold io; reflexivity).
    reflexivity.
  - erewrite try_raise by (apply bind_raise; unfold io; reflexivity).
    reflexivity.
Qed.

(** Opens a run of the initialization into the outcomes of its calls. *)
Ltac open_initialization :=
  unfold initialize_in_background, get_embedding_model, get_gemini_model,
    get_vector_store, try_except, bind, io, outcome, read_globals, read_disk,
    write_globals, write_disk, ret, raise;
  cbn [globals index_dirs _embedding_model _gemini_model _vector_store
       module_globals set_embedding_model set_gemini_model set_vector_store
       set_initialization_complete set_initialization_error
       _initialization_complete _initialization_error fst snd app].


(** **** X5.
    A start that finds a loadable index at the configured path: both
    models are loaded, the saved index becomes the index in memory, the
    state is ready, and the disk is left as it was; the content directory
    plays no part. *)
Theorem X5_start_with_a_saved_index (w : World) (settings : Settings)
    (disk : list (string * FAISS)) (stored : FAISS) :
  embeddings_fault w = None ->
  gemini_fault w (GOOGLE_API_KEY settings) (GEMINI_MODEL settings) = None ->
  lookup_dir (VECTOR_DB_PATH settings) disk = Some stored ->
  faiss_load_fault w (VECTOR_DB_PATH settings) = None ->
  initialize_in_background w settings {| globals := module_globals; index_dirs := disk |}
  = (Ok tt,
     {| globals :=
          {| _embedding_model :=
               Some (HuggingFaceEmbeddings "sentence-transformers/all-MiniLM-L6-v2"
                       "./model_cache");
             _gemini_model := Some (GenerativeModel (GEMINI_MODEL settings));
             _vector_store := Some stored;
             _initialization_complete := true;
             _initialization_error := None |};
        index_dirs := disk |},
     []).
Proof.
  intros Hemb Hgem Hdisk Hload. open_initialization.
  rewrite Hemb, Hgem. cbn. rewrite Hdisk, Hload. reflexivity.
Qed.

Lemma X5_witness :
  proc_of (initialize_in_background Examples.calm Examples.settings
             {| globals := module_globals;
                index_dirs := [("./data/vector_store", aab_store)] |})
  = {| globals := globals (Examples.ready_proc (Some aab_store));
       index_dirs := [("./data/vector_store", aab_store)] |}.
Proof.
  exact (f_equal proc_of
           (X5_start_with_a_saved_index Examples.calm Examples.settings
              [("./data/vector_store", aab_store)] aab_store
              eq_refl eq_refl eq_refl eq_refl)).
Defined.

(** **** X6.
    A start that finds a saved index it cannot load, and documents in the
    content directory: the load error is swallowed, the index is built
    again from the chunks of the documents and saved at the same path
    (in front of the old one), and the state is ready; the new index is
    on disk only, the index in memory stays unset. *)
Theorem X6_unloadable_index_is_rebuilt (w : World) (settings : Settings)
    (disk : list (string * FAISS)) (stored splits : FAISS) (e : string)
    (names : list string) (doc : Document) (docs : list Document) :
  embeddings_fault w = None ->
  gemini_fault w (GOOGLE_API_KEY settings) (GEMINI_MODEL settings) = None ->
  lookup_dir (VECTOR_DB_PATH settings) disk = Some stored ->
  faiss_load_fault w (VECTOR_DB_PATH settings) = Some e ->
  list_dir w (DISCOURSE_DATA_PATH settings) = Ok (Some names) ->
  loaded w (DISCOURSE_DATA_PATH settings) (glob_md names) = doc :: docs ->
  split_documents w (CHUNK_SIZE settings) (CHUNK_OVERLAP settings) (doc :: docs)
  = Ok splits ->
  mkdir_fault w (VECTOR_DB_PATH settings) = None ->
  faiss_build_fault w splits = None ->
  faiss_save_fault w (VECTOR_DB_PATH settings) = None ->
  initialize_in_background w settings {| globals := module_globals; index_dirs := disk |}
  = (Ok tt,
     {| globals :=
          {| _embedding_model :=
               Some (HuggingFaceEmbeddings "sentence-transformers/all-MiniLM-L6-v2"
                       "./model_cache");
             _gemini_model := Some (GenerativeModel (GEMINI_MODEL settings));
             _vector_store := None;
             _initialization_complete := true;
             _initialization_error := None |};
        index_dirs := (VECTOR_DB_PATH settings, splits) :: disk |},
     []).
Proof.
  intros Hemb Hgem Hdisk Hload Hdir Hdocs Hsplit Hmk Hbuild Hsave.
  open_initialization.
  rewrite Hemb, Hgem. cbn. rewrite Hdisk, Hload. cbn.
  rewrite load_documents_result, Hdir, Hdocs. cbn.
  rewrite Hsplit. cbn. rewrite Hmk, Hbuild, Hsave. reflexivity.
Qed.

Lemma X6_witness :
  lookup_dir "./data/vector_store"
    (index_dirs
       (proc_of
          (initialize_in_background unloadable_index_world Examples.settings
             {| globals := module_globals;
                index_dirs := [("./data/vector_store", aab_store)] |})))
  = Some [post_document "7.md" dict_post].
Proof.
  rewrite (X6_unloadable_index_is_rebuilt unloadable_index_world Examples.settings
             [("./data/vector_store", aab_store)] aab_store
             [post_document "7.md" dict_post] "could not open index.faiss"
             ["7.md"] (post_document "7.md" dict_post) []
             eq_refl eq_refl eq_refl eq_refl eq_refl eq_refl eq_refl eq_refl eq_refl
             eq_refl).
  reflexivity.
Defined.

(** **** X7.
    A start with no saved index and nothing to load (no content
    directory, a directory that cannot be listed, or no markdown file
    that can be read): no index is built and nothing is saved, and the
    initialization still completes, ready with no index. *)
Theorem X7_nothing_to_index_is_still_ready (w : World) (settings : Settings)
    (disk : list (string * FAISS)) :
  embeddings_fault w = None ->
  gemini_fault w (GOOGLE_API_KEY settings) (GEMINI_MODEL settings) = None ->
  lookup_dir (VECTOR_DB_PATH settings) disk = None ->
  match list_dir w (DISCOURSE_DATA_PATH settings) with
  | Ok (Some names) => loaded w (DISCOURSE_DATA_PATH settings) (glob_md names) = []
  | _ => True
  end ->
  initialize_in_background w settings {| globals := module_globals; index_dirs := disk |}
  = (Ok tt,
     {| globals :=
          {| _embedding_model :=
               Some (HuggingFaceEmbeddings "sentence-transformers/all-MiniLM-L6-v2"
                       "./model_cache");
             _gemini_model := Some (GenerativeModel (GEMINI_MODEL settings));
             _vector_store := None;
             _initialization_complete := true;
             _initialization_error := None |};
        index_dirs := disk |},
     []).
Proof.
  intros Hemb Hgem Hdisk Hdocs.
  open_initialization.
  rewrite Hemb, Hgem. cbn. rewrite Hdisk. cbn.
  rewrite load_documents_result.
  destruct (list_dir w (DISCOURSE_DATA_PATH settings)) as [[names |] | e].
  - rewrite Hdocs. reflexivity.
  - reflexivity.
  - reflexivity.
Qed.

Lemma X7_witness :
  current_state
    (globals (proc_of (initialize_in_background Examples.calm Examples.settings
                         {| globals := module_globals; index_dirs := [] |})))
  = Ready.
Proof.
  rewrite (X7_nothing_to_index_is_still_ready Examples.calm Examples.settings []
             eq_refl eq_refl eq_refl I).
  reflexivity.
Defined.

(** **** X8.
    An initialization that fails records the message of the step that
    failed and stops there.  When loading the embedding model raises,
    nothing else is loaded; when creating the generative model raises, the
    embedding model stays loaded.  In both cases the completion flag stays
    unset and the disk untouched. *)
Theorem X8_failure_is_recorded_with_its_message (w : World) (settings : Settings)
    (disk : list (string * FAISS)) (e : string) :
  (embeddings_fault w = Some e ->
   initialize_in_background w settings {| globals := module_globals; index_dirs := disk |}
   = (Ok tt,
      {| globals := set_initialization_error (Some e) module_globals;
         index_dirs := disk |},
      []))
  /\ (embeddings_fault w = None ->
      gemini_fault w (GOOGLE_API_KEY settings) (GEMINI_MODEL settings) = Some e ->
      initialize_in_background w settings
        {| globals := module_globals; index_dirs := disk |}
      = (Ok tt,
         {| globals :=
              set_initialization_error (Some e)
                (set_embedding_model
                   (Some (HuggingFaceEmbeddings "sentence-transformers/all-MiniLM-L6-v2"
                            "./model_cache"))
                   module_globals);
            index_dirs := disk |},
         [])).
Proof.
  split.
  - intros Hemb. open_initialization. rewrite Hemb. reflexivity.
  - intros Hemb Hgem. open_initialization. rewrite Hemb, Hgem. reflexivity.
Qed.

Lemma X8_witness :
  health_check
    (globals
       (proc_of
          (initialize_in_background bad_key_world Examples.settings
             {| globals := module_globals; index_dirs := [] |})))
  = {| status := "error"; error := Some "API key not valid" |}.
Proof.
  rewrite (proj2 (X8_failure_is_recorded_with_its_message bad_key_world
                    Examples.settings [] "API key not valid") eq_refl eq_refl).
  reflexivity.
Defined.

(* ===================================================================== *)
(** ** What holds in every state of the service *)
(* ===================================================================== *)

Lemma steps_preserve (settings : Settings) (P : Service.State -> Prop) :
  (forall s s', P s -> Service.step settings s s' -> P s') ->
  forall s s', Service.steps settings s s' -> P s -> P s'.
Proof.
  intros Hstep s s' Hsteps.
  induction Hsteps as [s | s1 s2 s3 H12 _ IH]; intros HP; [exact HP |].
  apply IH, (Hstep s1 s2 HP H12).
Qed.

(** A run of the initialization that sets the completion flag has loaded
    both models. *)
Lemma initialization_loads_the_models (w : World) (settings : Settings) :
  hoare (fun q => _initialization_complete (globals q) = false)
    (initialize_in_background w settings)
    (fun _ q => _initialization_complete (globals q) = true ->
                _embedding_model (globals q) <> None
                /\ _gemini_model (globals q) <> None).
Proof.
  set (I0 := fun q : Proc => _initialization_complete (globals q) = false).
  set (P1 := fun q : Proc => I0 q /\ _embedding_model (globals q) <> None).
  set (P2 := fun q : Proc => P1 q /\ _gemini_model (globals q) <> None).
  unfold initialize_in_background.
  apply (hoare_try _ _ _
           (fun r q => match r with
                       | Ok _ => _embedding_model (globals q) <> None
                                 /\ _gemini_model (globals q) <> None
                       | Raise _ => I0 q
                       end)).
  - apply (hoare_bind _ _ _
             (fun r q => match r with Ok _ => P1 q | Raise _ => I0 q end)).
    + intros q Hq. unfold P1, I0 in *.
      unfold get_embedding_model, try_except, bind, io, outcome, read_globals,
        write_globals, ret, raise, result_of, proc_of.
      destruct (_embedding_model (globals q)) as [m |] eqn:Hm; cbn.
      * rewrite Hm. split; [exact Hq | discriminate].
      * destruct (embeddings_fault w); cbn; [exact Hq |].
        split; [exact Hq | discriminate].
    + intros _.
      apply (hoare_bind _ _ _
               (fun r q => match r with Ok _ => P2 q | Raise _ => I0 q end)).
      * intros q [Hq Hemb]. unfold P2, P1, I0 in *.
        unfold get_gemini_model, try_except, bind, io, outcome, read_globals,
          write_globals, ret, raise, result_of, proc_of.
        destruct (_gemini_model (globals q)) as [m |] eqn:Hm; cbn.
        -- rewrite Hm. repeat split; try assumption. discriminate.
        -- destruct (gemini_fault w (GOOGLE_API_KEY settings) (GEMINI_MODEL settings));
             cbn; [exact Hq |].
           repeat split; try assumption. discriminate.
      * intros _.
        apply hoare_after;
          [apply keeps_read_globals | intros g | intros e q [[Hq _] _]; exact Hq].
        apply hoare_after; [| intros vs | intros e q [[Hq _] _]; exact Hq].
        { unfold get_vector_store. keeps_steps.
          all: apply keeps_write_globals; intros q Hq; exact Hq. }
        apply hoare_after; [| intros _ | intros e q [[Hq _] _]; exact Hq].
        { keeps_steps.
          all: apply keeps_write_disk; intros q Hq; exact Hq. }
        intros q [[_ Hemb] Hgem]. split; assumption.
      * intros e q Hq. exact Hq.
    + intros e q Hq. exact Hq.
  - intros a q Hq _. exact Hq.
  - intros e q Hq. unfold I0 in Hq.
    unfold write_globals, result_of, proc_of. cbn. rewrite Hq. discriminate.
Qed.

Lemma reachable_models_loaded (settings : Settings) (disk : list (string * FAISS))
    (s : Service.State) :
  Service.reachable settings disk s ->
  invariant s
  /\ (_initialization_complete (globals (Service.proc s)) = true ->
      _embedding_model (globals (Service.proc s)) <> None
      /\ _gemini_model (globals (Service.proc s)) <> None).
Proof.
  intros Hreach.
  apply (steps_preserve settings
           (fun s => invariant s
                     /\ (_initialization_complete (globals (Service.proc s)) = true ->
                         _embedding_model (globals (Service.proc s)) <> None
                         /\ _gemini_model (globals (Service.proc s)) <> None))
           ) with (s := Service.boot disk); [| exact Hreach |].
  - intros s1 s2 [Hinv Hloaded] Hstep.
    split; [exact (ServiceFacts.invariant_step settings s1 s2 Hinv Hstep) |].
    destruct Hstep as [w s1 Hp | s1 | w question image_data s1].
    + cbn [Service.proc].
      apply (initialization_loads_the_models w settings (Service.proc s1)).
      destruct Hinv as [Hpending _]. specialize (Hpending Hp).
      unfold flags in Hpending. injection Hpending as Hc _. exact Hc.
    + exact Hloaded.
    + cbn [Service.proc]. rewrite answer_question_keeps_proc. exact Hloaded.
  - split; [apply ServiceFacts.invariant_boot |].
    intros H. discriminate H.
Qed.

(** **** X9.
    In every state the service can reach, a question asked while ready
    makes exactly one call to the generator, after at most one decode of
    the image and at most one search of the index, in that order: the
    model is loaded whenever the state is ready, and nothing is tried a
    second time, also when the call raises. *)
Theorem X9_one_generation_call_per_question (settings : Settings)
    (disk : list (string * FAISS)) (s : Service.State) (w : World)
    (question : string) (image_data : option string) :
  Service.reachable settings disk s ->
  Service.state_of s = Ready ->
  calls_of (answer_question w settings question image_data (Service.proc s))
  = (image_calls image_data
     ++ retrieve_calls settings question (Service.proc s)
     ++ [Generate (_create_prompt question
                     (context_of (retrieved w settings question (Service.proc s))))
           (image_of w image_data)])%list
  /\ List.length (image_calls image_data) <= 1
  /\ List.length (retrieve_calls settings question (Service.proc s)) <= 1.
Proof.
  intros Hreach Hstate.
  destruct (reachable_models_loaded settings disk s Hreach) as [Hinv Hloaded].
  pose proof (proj1 (ServiceFacts.ready_iff_complete s Hinv) Hstate) as Hready.
  destruct (Hloaded Hready) as [_ Hgem].
  rewrite (answer_question_ready w settings question image_data _ Hready).
  unfold calls_of. cbn [snd]. unfold generate_calls.
  destruct (_gemini_model (globals (Service.proc s))) as [m |]; [| contradiction].
  split; [reflexivity |].
  split.
  - unfold image_calls. destruct image_data as [payload |]; [| cbn; lia].
    destruct (PyStr.truthy payload); cbn; lia.
  - unfold retrieve_calls.
    destruct (_vector_store (globals (Service.proc s))); cbn; lia.
Qed.

Lemma X9_witness :
  calls_of (answer_question
              (Examples.world None Examples.bad_image
                 (fun _ _ => Raise "429 quota exceeded") None)
              Examples.settings "What is a dict?" None
              (Service.proc (boot_then_initialized Examples.calm Examples.settings [])))
  = [Generate (_create_prompt "What is a dict?" "") None].
Proof.
  exact (proj1 (X9_one_generation_call_per_question Examples.settings []
                  (boot_then_initialized Examples.calm Examples.settings [])
                  (Examples.world None Examples.bad_image
                     (fun _ _ => Raise "429 quota exceeded") None)
                  "What is a dict?" None
                  (Service.steps_cons Examples.settings _ _ _
                     (Service.step_background_initialization Examples.settings
                        Examples.calm (Service.boot []) eq_refl)
                     (Service.steps_refl Examples.settings _))
                  eq_refl)).
Defined.

(** **** X10.
    A service whose initialization thread has run without setting the
    completion flag stays that way: whatever steps follow (health
    queries, questions), every later question is refused with the
    not-ready exception and no call is made.  Nothing retries the
    initialization. *)
Theorem X10_failed_initialization_is_permanent (settings : Settings)
    (disk : list (string * FAISS)) (s s' : Service.State) (w : World)
    (question : string) (image_data : option string) :
  Service.reachable settings disk s ->
  Service.init_thread_pending s = false ->
  is_ready (globals (Service.proc s)) = false ->
  Service.steps settings s s' ->
  answer_question w settings question image_data (Service.proc s')
  = (Raise not_ready_message, Service.proc s', [])
  /\ Service.state_of s' = Service.state_of s
  /\ Service.state_of s' <> Ready.
Proof.
  intros Hreach Hdone Hnot Hsteps.
  destruct (ServiceFacts.frozen settings s s' Hsteps Hdone) as [Hflags _].
  assert (Hnot' : is_ready (globals (Service.proc s')) = false).
  { unfold is_ready, flags in *. injection Hflags as Hc _. congruence. }
  split; [apply answer_question_not_ready, Hnot' |].
  split; [apply ServiceFacts.state_of_flags, Hflags |].
  rewrite (ServiceFacts.state_of_flags s s' Hflags).
  pose proof (ServiceFacts.invariant_reachable settings disk s Hreach) as Hinv.
  intros Hready.
  apply (ServiceFacts.ready_iff_complete s Hinv) in Hready. congruence.
Qed.

Lemma X10_witness :
  answer_question Examples.calm Examples.settings "What is a dict?" None
    (Service.proc
       (then_asked Examples.calm Examples.settings "first"
          (boot_then_initialized bad_key_world Examples.settings [])))
  = (Raise not_ready_message,
     Service.proc
       (then_asked Examples.calm Examples.settings "first"
          (boot_then_initialized bad_key_world Examples.settings [])),
     []).
Proof.
  exact (proj1 (X10_failed_initialization_is_permanent Examples.settings []
                  (boot_then_initialized bad_key_world Examples.settings [])
                  (then_asked Examples.calm Examples.settings "first"
                     (boot_then_initialized bad_key_world Examples.settings []))
                  Examples.calm "What is a dict?" None
                  (Service.steps_cons Examples.settings _ _ _
                     (Service.step_background_initialization Examples.settings
                        bad_key_world (Service.boot []) eq_refl)
                     (Service.steps_refl Examples.settings _))
                  eq_refl eq_refl
                  (Service.steps_cons Examples.settings _ _ _
                     (Service.step_question Examples.settings Examples.calm "first" None
                        (boot_then_initialized bad_key_world Examples.settings []))
                     (Service.steps_refl Examples.settings _)))).
Defined.

Lemma reachable_thread_outcome (settings : Settings) (disk : list (string * FAISS))
    (s : Service.State) :
  Service.reachable settings disk s ->
  Service.init_thread_pending s = false ->
  flags (Service.proc s) = (true, None)
  \/ exists e, flags (Service.proc s) = (false, Some e).
Proof.
  intros Hreach.
  apply (steps_preserve settings
           (fun s => invariant s
                     /\ (Service.init_thread_pending s = false ->
                         flags (Service.proc s) = (true, None)
                         \/ exists e, flags (Service.proc s) = (false, Some e))))
    with (s := Service.boot disk); [| exact Hreach |].
  - intros s1 s2 [Hinv Hout] Hstep.
    split; [exact (ServiceFacts.invariant_step settings s1 s2 Hinv Hstep) |].
    destruct Hstep as [w s1 Hp | s1 | w question image_data s1].
    + intros _. cbn [Service.proc].
      destruct Hinv as [Hpending _]. specialize (Hpending Hp).
      destruct (initialization_flags w settings (Service.proc s1)) as [H | [e H]];
        rewrite Hpending in H; cbn [fst snd] in H; [left | right; exists e]; exact H.
    + exact Hout.
    + cbn [Service.proc Service.init_thread_pending].
      rewrite answer_question_keeps_proc. exact Hout.
  - split; [apply ServiceFacts.invariant_boot |].
    intros H. discriminate H.
Qed.

(** **** X11.
    Once the initialization thread has run, the health query still
    reports [initializing] only in one case: the run failed with an
    exception whose message is the empty string.  The stored message is
    then falsy, so the failure is reported neither as an error nor as
    ready, and questions are refused. *)
Theorem X11_initializing_after_the_run_means_empty_message (settings : Settings)
    (disk : list (string * FAISS)) (s : Service.State) :
  Service.reachable settings disk s ->
  Service.init_thread_pending s = false ->
  status (health_check (globals (Service.proc s))) = "initializing" ->
  _initialization_error (globals (Service.proc s)) = Some ""
  /\ is_ready (globals (Service.proc s)) = false.
Proof.
  intros Hreach Hdone Hhealth.
  rewrite health_check_spec, current_state_spec in Hhealth.
  unfold is_ready.
  destruct (reachable_thread_outcome settings disk s Hreach Hdone) as [H | [e H]];
    unfold flags in H; injection H as Hc He; rewrite Hc, He in *.
  - cbn in Hhealth. discriminate Hhealth.
  - destruct e as [| c e]; [split; reflexivity |].
    cbn in Hhealth. discriminate Hhealth.
Qed.

Lemma X11_witness :
  _initialization_error
    (globals (Service.proc (boot_then_initialized silent_failure_world
                               Examples.settings [])))
  = Some "".
Proof.
  exact (proj1 (X11_initializing_after_the_run_means_empty_message Examples.settings []
                  (boot_then_initialized silent_failure_world Examples.settings [])
                  (Service.steps_cons Examples.settings _ _ _
                     (Service.step_background_initialization Examples.settings
                        silent_failure_world (Service.boot []) eq_refl)
                     (Service.steps_refl Examples.settings _))
                  eq_refl eq_refl)).
Defined.

(* ===================================================================== *)
(** ** The handler of [POST /] *)
(* ===================================================================== *)

Lemma rebuilt_links (ls : list Link) :
  map (fun link => {| url := url link; text := text link |}) ls = ls.
Proof.
  induction ls as [| [u t] ls IH]; [reflexivity |].
  cbn. rewrite IH. reflexivity.
Qed.

(** **** X12.
    The handler of [POST /] answers 503 while the engine is not ready,
    without calling the engine; while it is ready it answers with the
    engine's answer and links, unchanged.  It never answers 500: the
    engine raises nothing that could reach the handler's own [except]. *)
Theorem X12_post_handler_is_503_or_the_answer (w : World) (settings : Settings)
    (request : Main.QuestionRequest) (p : Proc) :
  (is_ready (globals p) = false ->
   Main.answer_question w settings request p
   = (Ok (Main.HTTPException 503
            "The RAG engine is still initializing. Please try again in a few minutes."),
      p, []))
  /\ (is_ready (globals p) = true ->
      exists r,
        result_of (answer_question w settings (Main.question request)
                     (Main.image request) p) = Ok r
        /\ Main.answer_question w settings request p
           = (Ok (Main.AnswerResponse (answer r) (links r)), p,
              calls_of (answer_question w settings (Main.question request)
                          (Main.image request) p)))
  /\ (forall detail,
        result_of (Main.answer_question w settings request p)
        <> Ok (Main.HTTPException 500 detail)).
Proof.
  assert (Hnot : is_ready (globals p) = false ->
                 Main.answer_question w settings request p
                 = (Ok (Main.HTTPException 503
                          "The RAG engine is still initializing. Please try again in a few minutes."),
                    p, [])).
  { intros H. unfold Main.answer_question, bind, read_globals, ret.
    rewrite H. reflexivity. }
  assert (Hyes : is_ready (globals p) = true ->
                 exists r,
                   result_of (answer_question w settings (Main.question request)
                                (Main.image request) p) = Ok r
                   /\ Main.answer_question w settings request p
                      = (Ok (Main.AnswerResponse (answer r) (links r)), p,
                         calls_of (answer_question w settings (Main.question request)
                                     (Main.image request) p))).
  { intros H.
    pose proof (answer_question_ready w settings (Main.question request)
                  (Main.image request) p H) as Hrun.
    unfold Main.answer_question, try_except, bind, read_globals, ret.
    rewrite H. cbn [negb]. rewrite Hrun. cbn [fst snd app result_of calls_of].
    eexists. split; [reflexivity |].
    rewrite rebuilt_links, app_nil_r. reflexivity. }
  split; [exact Hnot |]. split; [exact Hyes |].
  intros detail Hbad.
  destruct (is_ready (globals p)) eqn:Hready.
  - destruct (Hyes eq_refl) as [r [_ Hrun]]. rewrite Hrun in Hbad. discriminate Hbad.
  - rewrite (Hnot eq_refl) in Hbad. discriminate Hbad.
Qed.

Lemma X12_witness :
  result_of (Main.answer_question Examples.calm Examples.settings
               {| Main.question := "What is a dict?"; Main.image := None |}
               (Examples.ready_proc None))
  = Ok (Main.AnswerResponse "An answer." [])
  /\ result_of (Main.answer_question Examples.calm Examples.settings
                  {| Main.question := "What is a dict?"; Main.image := None |}
                  idle_proc)
     = Ok (Main.HTTPException 503
             "The RAG engine is still initializing. Please try again in a few minutes.").
Proof.
  split; [reflexivity |].
  exact (f_equal result_of
           (proj1 (X12_post_handler_is_503_or_the_answer Examples.calm Examples.settings
                     {| Main.question := "What is a dict?"; Main.image := None |}
                     idle_proc)
              eq_refl)).
Defined.

(* ===================================================================== *)
(** ** The prompt, the context and the links *)
(* ===================================================================== *)

Lemma prefix_mono (sub s rest : string) :
  prefix sub s = true -> prefix sub (s ++ rest) = true.
Proof.
  revert s. induction sub as [| a sub IH]; intros s H.
  - destruct (s ++ rest); reflexivity.
  - destruct s as [| b s]; [discriminate H |].
    change ((String b s) ++ rest) with (String b (s ++ rest)).
    rewrite prefix_cons in *. destruct (ascii_dec a b); [apply IH, H | discriminate H].
Qed.

Lemma contains_app_r (sub a s : string) :
  PyStr.contains sub s = true -> PyStr.contains sub (a ++ s) = true.
Proof.
  intros H. induction a as [| x a IH]; [exact H |].
  change ((String x a) ++ s) with (String x (a ++ s)).
  cbn [PyStr.contains]. rewrite IH. apply orb_true_r.
Qed.

Lemma contains_app_l (sub s rest : string) :
  PyStr.contains sub s = true -> PyStr.contains sub (s ++ rest) = true.
Proof.
  induction s as [| x s IH]; intros H.
  - cbn [PyStr.contains] in H. rewrite orb_false_r in H.
    destruct sub; [| discriminate H].
    destruct ("" ++ rest); reflexivity.
  - change ((String x s) ++ rest) with (String x (s ++ rest)).
    cbn [PyStr.contains] in *. apply orb_true_iff in H as [H | H].
    + change (String x (s ++ rest)) with ((String x s) ++ rest).
      rewrite (prefix_mono _ _ rest H). reflexivity.
    + rewrite (IH H). apply orb_true_r.
Qed.

Lemma contains_here (sub rest : string) : PyStr.contains sub (sub ++ rest) = true.
Proof.
  destruct (sub ++ rest) eqn:E; cbn [PyStr.contains]; rewrite <- E, prefix_app;
    reflexivity.
Qed.

Lemma ends_with_refl (s : string) : ends_with s s = true.
Proof.
  destruct s; cbn [ends_with]; rewrite String.eqb_refl; reflexivity.
Qed.

Lemma ends_with_app_r (suffix a s : string) :
  ends_with suffix s = true -> ends_with suffix (a ++ s) = true.
Proof.
  intros H. induction a as [| x a IH]; [exact H |].
  change ((String x a) ++ s) with (String x (a ++ s)).
  cbn [ends_with]. rewrite IH. apply orb_true_r.
Qed.

(** Walks into a concatenation up to the piece [sub]. *)
Ltac find_piece sub :=
  repeat match goal with
         | |- PyStr.contains sub (?a ++ _) = true =>
             tryif constr_eq a sub then fail else apply contains_app_r
         end;
  apply contains_here.

(** **** X13.
    Whatever the question and the context, the prompt opens with the same
    sentence that sets the assistant's role, holds the question verbatim,
    and ends with the cue for the answer; a non-empty context is held
    verbatim too, under its heading. *)
Theorem X13_prompt_holds_question_and_context (question context : string) :
  prefix "You are a virtual teaching assistant for a Technical Data Science (TDS) class at IIT Madras' Online Degree in Data Science."
    (_create_prompt question context) = true
  /\ PyStr.contains question (_create_prompt question context) = true
  /\ ends_with "YOUR ANSWER:" (_create_prompt question context) = true
  /\ (context <> "" ->
      PyStr.contains ("CONTEXT:" ++ PyStr.nl ++ context)
        (_create_prompt question context) = true).
Proof.
  unfold _create_prompt.
  destruct context as [| c context]; cbn [PyStr.truthy].
  - split; [reflexivity |].
    split; [find_piece question |].
    split; [repeat apply ends_with_app_r; apply ends_with_refl |].
    intros H. contradiction H. reflexivity.
  - split; [reflexivity |].
    split; [find_piece question |].
    split; [repeat apply ends_with_app_r; apply ends_with_refl |].
    intros _.
    repeat match goal with
           | |- PyStr.contains _ (?a ++ _) = true =>
               tryif constr_eq a "CONTEXT:" then fail else apply contains_app_r
           end.
    rewrite <- (append_assoc PyStr.nl (String c context)).
    rewrite <- (append_assoc "CONTEXT:" (PyStr.nl ++ String c context)).
    apply contains_here.
Qed.

Lemma X13_witness :
  PyStr.contains ("CONTEXT:" ++ PyStr.nl ++ "Python dicts are hash maps.")
    (_create_prompt "What is a dict?" "Python dicts are hash maps.") = true.
Proof.
  refine (proj2 (proj2 (proj2
            (X13_prompt_holds_question_and_context "What is a dict?"
               "Python dicts are hash maps."))) _).
  discriminate.
Defined.

Lemma context_of_split (docs : list Document) (doc : Document) :
  In doc docs ->
  exists before after,
    context_of docs
    = before ++ (page_content doc ++ PyStr.nl ++ PyStr.nl) ++ after.
Proof.
  induction docs as [| d docs IH]; intros Hin; [destruct Hin |].
  destruct Hin as [Heq | Hin].
  - subst d. exists "", (context_of docs). reflexivity.
  - destruct (IH Hin) as [before [after H]].
    exists ((page_content d ++ PyStr.nl ++ PyStr.nl) ++ before), after.
    cbn [context_of]. rewrite H. symmetry. apply append_assoc.
Qed.

Lemma truthy_app_cons (a : string) (c : ascii) (b : string) :
  PyStr.truthy (a ++ String c b) = true.
Proof. destruct a; reflexivity. Qed.

(** **** X14.
    The context handed to the prompt is empty exactly when no chunk was
    retrieved: one retrieved chunk, even one whose text is empty, selects
    the prompt with context.  That prompt holds the text of every
    retrieved chunk, each followed by a blank line. *)
Theorem X14_every_retrieved_chunk_is_in_the_prompt (w : World)
    (docs : list Document) (p : Proc) (question context : string)
    (ls : list Link) :
  result_of (gather w docs "" [] p) = Ok (context, ls) ->
  (docs = [] -> _create_prompt question context = _create_prompt question "")
  /\ (docs <> [] ->
      PyStr.truthy context = true
      /\ PyStr.contains ("CONTEXT:" ++ PyStr.nl ++ context)
           (_create_prompt question context) = true)
  /\ (forall doc,
        In doc docs ->
        PyStr.contains (page_content doc ++ PyStr.nl ++ PyStr.nl)
          (_create_prompt question context) = true).
Proof.
  rewrite gather_spec. unfold result_of. cbn [fst].
  intros H. injection H as Hctx _.
  change ("" ++ context_of docs) with (context_of docs) in Hctx. subst context.
  assert (Hnonempty : docs <> [] -> PyStr.truthy (context_of docs) = true).
  { destruct docs as [| d docs]; [intros H; contradiction H; reflexivity |].
    intros _. cbn [context_of]. rewrite !append_assoc.
    unfold PyStr.nl at 1. apply truthy_app_cons. }
  split; [intros Hd; subst docs; reflexivity |].
  split.
  - intros Hd. split; [exact (Hnonempty Hd) |].
    unfold _create_prompt. rewrite (Hnonempty Hd).
    repeat match goal with
           | |- PyStr.contains _ (?a ++ _) = true =>
               tryif constr_eq a "CONTEXT:" then fail else apply contains_app_r
           end.
    rewrite <- (append_assoc PyStr.nl (context_of docs)).
    rewrite <- (append_assoc "CONTEXT:" (PyStr.nl ++ context_of docs)).
    apply contains_here.
  - intros doc Hin.
    assert (Hd : docs <> []) by (intros E; subst docs; destruct Hin).
    destruct (context_of_split docs doc Hin) as [before [after Hsplit]].
    unfold _create_prompt. rewrite (Hnonempty Hd).
    repeat match goal with
           | |- PyStr.contains _ (?a ++ _) = true =>
               tryif constr_eq a (context_of docs) then fail else apply contains_app_r
           end.
    apply contains_app_l. rewrite Hsplit.
    apply contains_app_r, contains_here.
Qed.

Lemma X14_witness :
  PyStr.contains ("Python dicts are hash maps." ++ PyStr.nl ++ PyStr.nl)
    (_create_prompt "What is a dict?"
       (context_of [Examples.chunk discussion_7 "Python dicts are hash maps."]))
  = true.
Proof.
  exact (proj2 (proj2
           (X14_every_retrieved_chunk_is_in_the_prompt Examples.calm
              [Examples.chunk discussion_7 "Python dicts are hash maps."] idle_proc
              "What is a dict?"
              (context_of [Examples.chunk discussion_7 "Python dicts are hash maps."])
              (links_of Examples.calm
                 [Examples.chunk discussion_7 "Python dicts are hash maps."])
              (f_equal result_of
                 (gather_spec Examples.calm
                    [Examples.chunk discussion_7 "Python dicts are hash maps."]
                    "" [] idle_proc))))
           (Examples.chunk discussion_7 "Python dicts are hash maps.")
           (or_introl eq_refl)).
Defined.

(** **** X15.
    Every link of an answer comes from a retrieved chunk: its URL is the
    source of that chunk and is not empty, and its text is the label of
    that source.  There are at most as many links as retrieved chunks. *)
Theorem X15_links_come_from_retrieved_chunks (w : World) (docs : list Document)
    (p : Proc) (context : string) (ls : list Link) :
  result_of (gather w docs "" [] p) = Ok (context, ls) ->
  List.length ls <= List.length docs
  /\ forall link,
       In link ls ->
       url link <> ""
       /\ text link = link_text w (url link)
       /\ exists doc,
            In doc docs /\ dict_get "source" (metadata doc) "" = url link.
Proof.
  rewrite gather_spec. unfold result_of. cbn [fst].
  intros H. injection H as _ Hls. cbn [app] in Hls. subst ls.
  unfold links_of. split.
  - rewrite length_map. apply filter_length_le.
  - intros link Hin. apply in_map_iff in Hin as [doc [Hlink Hin]].
    apply filter_In in Hin as [Hin Hsrc].
    subst link. unfold link_for. cbn [url text].
    split.
    + unfold has_source in Hsrc. intros Hempty. rewrite Hempty in Hsrc.
      discriminate Hsrc.
    + split; [reflexivity |]. exists doc. split; [exact Hin | reflexivity].
Qed.

Lemma X15_witness :
  List.length (links_of Examples.calm aab_store) <= List.length aab_store.
Proof.
  exact (proj1 (X15_links_come_from_retrieved_chunks Examples.calm aab_store idle_proc
                  (context_of aab_store) (links_of Examples.calm aab_store)
                  (f_equal result_of
                     (gather_spec Examples.calm aab_store "" [] idle_proc)))).
Defined.

Lemma image_of_spec (w : World) (image_data : option string) :
  image_of w image_data
  = match image_data with
    | Some payload =>
        if PyStr.truthy payload
        then match image_open w payload with
             | Ok image => Some image
             | Raise _ => None
             end
        else None
    | None => None
    end.
Proof.
  unfold image_of, process_image, try_except, bind, call, ret, result_of.
  destruct image_data as [payload |]; [| reflexivity].
  destruct (PyStr.truthy payload); [| reflexivity].
  destruct (image_open w payload); reflexivity.
Qed.

(** **** X16.
    In a ready process the generator is given an image exactly when the
    request carries a non-empty payload that decodes, and the image it is
    given is the decoded one.  An absent payload, the empty string and a
    payload that fails to decode all lead to the call with the prompt
    alone. *)
Theorem X16_image_reaches_the_generator_iff_decoded (w : World)
    (settings : Settings) (question : string) (image_data : option string)
    (p : Proc) :
  is_ready (globals p) = true ->
  (forall prompt image,
     In (Generate prompt (Some image))
        (calls_of (answer_question w settings question image_data p)) ->
     exists payload,
       image_data = Some payload /\ payload <> "" /\ image_open w payload = Ok image)
  /\ (forall payload image,
        image_data = Some payload ->
        payload <> "" ->
        image_open w payload = Ok image ->
        _gemini_model (globals p) <> None ->
        In (Generate
              (_create_prompt question (context_of (retrieved w settings question p)))
              (Some image))
           (calls_of (answer_question w settings question image_data p))).
Proof.
  intros Hready.
  rewrite (answer_question_ready w settings question image_data p Hready).
  unfold calls_of. cbn [snd]. rewrite image_of_spec. split.
  - intros prompt image Hin.
    apply in_app_or in Hin as [Hin | Hin].
    { unfold image_calls in Hin. destruct image_data as [payload |]; [| destruct Hin].
      destruct (PyStr.truthy payload); [| destruct Hin].
      destruct Hin as [Hin | []]. discriminate Hin. }
    apply in_app_or in Hin as [Hin | Hin].
    { unfold retrieve_calls in Hin.
      destruct (_vector_store (globals p)); [| destruct Hin].
      destruct Hin as [Hin | []]. discriminate Hin. }
    unfold generate_calls in Hin.
    destruct (_gemini_model (globals p)); [| destruct Hin].
    destruct Hin as [Hin | []]. injection Hin as _ Himage.
    destruct image_data as [payload |]; [| discriminate Himage].
    exists payload. split; [reflexivity |].
    destruct payload as [| c payload]; cbn [PyStr.truthy] in Himage;
      [discriminate Himage |].
    split; [discriminate |].
    destruct (image_open w (String c payload)) as [i | e];
      [injection Himage as Himage; subst i; reflexivity | discriminate Himage].
  - intros payload image Hdata Hne Hopen Hgem. subst image_data.
    destruct payload as [| c payload]; [contradiction Hne; reflexivity |].
    cbn [PyStr.truthy]. rewrite Hopen.
    apply in_or_app. right. apply in_or_app. right.
    unfold generate_calls. destruct (_gemini_model (globals p)); [| contradiction].
    left. reflexivity.
Qed.

Lemma X16_witness :
  In (Generate (_create_prompt "What is in the picture?" "")
        (Some (PILImage "iVBORw0KGgo=")))
     (calls_of (answer_question
                  (Examples.world None (fun payload => Ok (PILImage payload))
                     (Examples.says "A chart.") None)
                  Examples.settings "What is in the picture?" (Some "iVBORw0KGgo=")
                  (Examples.ready_proc None))).
Proof.
  refine (proj2 (X16_image_reaches_the_generator_iff_decoded
                   (Examples.world None (fun payload => Ok (PILImage payload))
                      (Examples.says "A chart.") None)
                   Examples.settings "What is in the picture?" (Some "iVBORw0KGgo=")
                   (Examples.ready_proc None) eq_refl)
            "iVBORw0KGgo=" (PILImage "iVBORw0KGgo=") eq_refl _ eq_refl _);
    discriminate.
Defined.

(* ===================================================================== *)
(** ** The source of a loaded document is trimmed *)
(* ===================================================================== *)

Lemma lstrip_head (s : string) (c : ascii) (rest : string) :
  PyStr.lstrip s = String c rest -> PyStr.isspace c = false.
Proof.
  induction s as [| x s IH]; intros H; [discriminate H |].
  cbn [PyStr.lstrip] in H. destruct (PyStr.isspace x) eqn:Hx.
  - exact (IH H).
  - injection H as Hc _. subst x. exact Hx.
Qed.

Lemma rstrip_keeps_head (s : string) (c : ascii) (rest : string) :
  PyStr.rstrip s = String c rest -> exists rest', s = String c rest'.
Proof.
  destruct s as [| x s]; intros H; [discriminate H |].
  cbn [PyStr.rstrip] in H.
  destruct (PyStr.rstrip s) as [| y r].
  - destruct (PyStr.isspace x); [discriminate H |].
    injection H as Hc _. subst x. exists s. reflexivity.
  - injection H as Hc _. subst x. exists s. reflexivity.
Qed.

Lemma rstrip_idem (s : string) : PyStr.rstrip (PyStr.rstrip s) = PyStr.rstrip s.
Proof.
  induction s as [| x s IH]; [reflexivity |].
  cbn [PyStr.rstrip].
  destruct (PyStr.rstrip s) as [| y r] eqn:Hr.
  - destruct (PyStr.isspace x) eqn:Hx; [reflexivity |].
    cbn [PyStr.rstrip]. rewrite Hx. reflexivity.
  - cbn [PyStr.rstrip]. cbn [PyStr.rstrip] in IH.
    destruct (PyStr.rstrip r) as [| z r'] eqn:Hr'.
    + destruct (PyStr.isspace y); [discriminate IH |]. rewrite IH. reflexivity.
    + rewrite IH. reflexivity.
Qed.

Lemma rstrip_last (s : string) :
  forall (before : string) (c : ascii),
    PyStr.rstrip s = before ++ String c "" -> PyStr.isspace c = false.
Proof.
  induction s as [| x s IH]; intros before c H.
  - destruct before; discriminate H.
  - cbn [PyStr.rstrip] in H.
    destruct (PyStr.rstrip s) as [| y r] eqn:Hr.
    + destruct (PyStr.isspace x) eqn:Hx.
      * destruct before; discriminate H.
      * destruct before as [| b before].
        -- injection H as Hc. subst x. exact Hx.
        -- injection H as _ H. destruct before; discriminate H.
    + destruct before as [| b before].
      * discriminate H.
      * injection H as _ H. exact (IH before c H).
Qed.

Lemma strip_is_trimmed (s : string) :
  PyStr.lstrip (PyStr.strip s) = PyStr.strip s
  /\ PyStr.rstrip (PyStr.strip s) = PyStr.strip s.
Proof.
  unfold PyStr.strip. split; [| apply rstrip_idem].
  destruct (PyStr.rstrip (PyStr.lstrip s)) as [| c rest] eqn:H; [reflexivity |].
  destruct (rstrip_keeps_head _ _ _ H) as [rest' Hhead].
  cbn [PyStr.lstrip]. rewrite (lstrip_head s c rest' Hhead). reflexivity.
Qed.

Lemma extract_url_is_stripped (lines : list string) :
  extract_url lines = "" \/ exists s, extract_url lines = PyStr.strip s.
Proof.
  induction lines as [| line rest IH]; [left; reflexivity |].
  cbn [extract_url]. destruct (PyStr.contains url_marker line); [| exact IH].
  right. eexists. reflexivity.
Qed.

(** **** X17.
    The source URL of every loaded document is trimmed: it neither starts
    nor ends with a whitespace character, so that stripping it again
    changes nothing. *)
Theorem X17_source_url_is_trimmed (file_name content : string) :
  PyStr.strip (dict_get "source" (metadata (post_document file_name content)) "")
  = dict_get "source" (metadata (post_document file_name content)) ""
  /\ (forall c rest,
        dict_get "source" (metadata (post_document file_name content)) ""
        = String c rest ->
        PyStr.isspace c = false)
  /\ (forall before c,
        dict_get "source" (metadata (post_document file_name content)) ""
        = before ++ String c "" ->
        PyStr.isspace c = false).
Proof.
  unfold post_document. cbn [metadata dict_get String.eqb Ascii.eqb Bool.eqb].
  destruct (extract_url_is_stripped (PyStr.split (ascii_of_nat 10) content))
    as [H | [s H]]; rewrite H.
  - split; [reflexivity |].
    split; [intros c rest E; discriminate E |].
    intros before c E. destruct before; discriminate E.
  - destruct (strip_is_trimmed s) as [Hl Hr].
    split; [unfold PyStr.strip at 1; rewrite Hl; exact Hr |].
    split.
    + intros c rest E. rewrite E in Hl. cbn [PyStr.lstrip] in Hl.
      destruct (PyStr.isspace c) eqn:Hc; [| reflexivity].
      exfalso.
      assert (Hlen : String.length (PyStr.lstrip rest) <= String.length rest).
      { clear. induction rest as [| x rest IH]; [cbn; lia |].
        cbn [PyStr.lstrip]. destruct (PyStr.isspace x); cbn [String.length]; lia. }
      rewrite Hl in Hlen. cbn [String.length] in Hlen. lia.
    + intros before c E. rewrite <- Hr in E. exact (rstrip_last _ before c E).
Qed.

Lemma X17_witness :
  dict_get "source"
    (metadata (post_document "7.md"
                 ("**URL:**   https://example.com/t/5/7    " ++ PyStr.nl ++ "text")))
    ""
  = "https://example.com/t/5/7"
  /\ PyStr.isspace "h" = false.
Proof.
  split; [reflexivity |].
  exact (proj1 (proj2
           (X17_source_url_is_trimmed "7.md"
              ("**URL:**   https://example.com/t/5/7    " ++ PyStr.nl ++ "text")))
           "h"%char "ttps://example.com/t/5/7" eq_refl).
Defined.

(* ===================================================================== *)
(** ** The preprocessing script *)
(* ===================================================================== *)







(* ===================================================================== *)
(** ** From the preprocessing script to the loader *)
(* ===================================================================== *)




Lemma all_chars_app (f : ascii -> bool) (a b : string) :
  PyStr.all_chars f (a ++ b) = PyStr.all_chars f a && PyStr.all_chars f b.
Proof.
  induction a as [| x a IH]; [reflexivity |].
  change ((String x a) ++ b) with (String x (a ++ b)).
  cbn [PyStr.all_chars]. rewrite IH, andb_assoc. reflexivity.
Qed.

Lemma all_chars_impl (f g : ascii -> bool) (s : string) :
  (forall c, f c = true -> g c = true) ->
  PyStr.all_chars f s = true -> PyStr.all_chars g s = true.
Proof.
  intros Hfg. induction s as [| x s IH]; [reflexivity |].
  cbn [PyStr.all_chars]. intros H. apply andb_prop in H as [Hx Hs].
  rewrite (Hfg x Hx), (IH Hs). reflexivity.
Qed.

Lemma contains_needs_first_char (a : ascii) (sub s : string) :
  PyStr.all_chars (fun c => negb (Ascii.eqb c a)) s = true ->
  PyStr.contains (String a sub) s = false.
Proof.
  induction s as [| x s IH]; intros H; [reflexivity |].
  cbn [PyStr.all_chars] in H. apply andb_prop in H as [Hx Hs].
  cbn [PyStr.contains]. rewrite (IH Hs), orb_false_r, prefix_cons.
  destruct (ascii_dec a x) as [E | _]; [| reflexivity].
  subst x. rewrite Ascii.eqb_refl in Hx. discriminate Hx.
Qed.

Lemma split_nonempty (c : ascii) (s : string) : PyStr.split c s <> [].
Proof.
  destruct s as [| x s]; cbn [PyStr.split]; [discriminate |].
  destruct (Ascii.eqb x c); [discriminate |].
  destruct (PyStr.split c s); discriminate.
Qed.

Lemma split_app (c : ascii) (a b : string) :
  PyStr.split c (a ++ String c b) = (PyStr.split c a ++ PyStr.split c b)%list.
Proof.
  induction a as [| x a IH].
  - cbn. rewrite Ascii.eqb_refl. reflexivity.
  - change ((String x a) ++ String c b) with (String x (a ++ String c b)).
    cbn [PyStr.split]. rewrite IH.
    destruct (Ascii.eqb x c); [reflexivity |].
    destruct (PyStr.split c a) as [| l ls] eqn:Hsplit;
      [contradiction (split_nonempty c a Hsplit) | reflexivity].
Qed.

Lemma split_single (c : ascii) (s : string) :
  PyStr.all_chars (fun x => negb (Ascii.eqb x c)) s = true ->
  PyStr.split c s = [s].
Proof.
  induction s as [| x s IH]; intros H; [reflexivity |].
  cbn [PyStr.all_chars] in H. apply andb_prop in H as [Hx Hs].
  cbn [PyStr.split]. rewrite (IH Hs).
  destruct (Ascii.eqb x c); [discriminate Hx | reflexivity].
Qed.











(* ===================================================================== *)
(** ** Posts with integer identifiers, up to the link *)
(* ===================================================================== *)

Lemma uint_chars (d : Decimal.uint) :
  PyStr.all_chars Preprocess.decimal_char (NilEmpty.string_of_uint d) = true.
Proof.
  induction d; cbn [NilEmpty.string_of_uint PyStr.all_chars];
    try reflexivity; rewrite IHd; reflexivity.
Qed.

Lemma integer_chars (z : Z) :
  PyStr.all_chars Preprocess.decimal_char (Preprocess.str (Preprocess.JInt z)) = true.
Proof.
  assert (Hzero : forall d,
            PyStr.all_chars Preprocess.decimal_char (NilZero.string_of_uint d) = true).
  { intros d. unfold NilZero.string_of_uint.
    destruct d; try reflexivity; apply uint_chars. }
  unfold Preprocess.str, NilZero.string_of_int.
  destruct (Z.to_int z) as [d | d]; [apply Hzero |].
  cbn [PyStr.all_chars]. rewrite Hzero. reflexivity.
Qed.

Lemma decimal_char_cases (c : ascii) :
  Preprocess.decimal_char c = true ->
  In c ["0"; "1"; "2"; "3"; "4"; "5"; "6"; "7"; "8"; "9"; "-"]%char.
Proof.
  destruct c as [[] [] [] [] [] [] [] []]; cbn; intros H;
    try discriminate H; auto 12.
Qed.

Lemma decimal_char_has (f : ascii -> bool) :
  forallb f ["0"; "1"; "2"; "3"; "4"; "5"; "6"; "7"; "8"; "9"; "-"]%char = true ->
  forall c, Preprocess.decimal_char c = true -> f c = true.
Proof.
  intros Hall c Hc. rewrite forallb_forall in Hall.
  apply Hall, decimal_char_cases, Hc.
Qed.

Lemma prefix_decided_sound (sub lit s : string) (b : bool) :
  prefix_decided sub lit = Some b -> prefix sub (lit ++ s) = b.
Proof.
  revert lit. induction sub as [| a sub IH]; intros lit H.
  - injection H as H. subst b. destruct (lit ++ s); reflexivity.
  - destruct lit as [| x lit]; [discriminate H |].
    change ((String x lit) ++ s) with (String x (lit ++ s)).
    cbn [prefix_decided] in H. rewrite prefix_cons.
    destruct (Ascii.eqb a x) eqn:E.
    + apply Ascii.eqb_eq in E. subst x.
      destruct (ascii_dec a a) as [_ | Hne]; [apply IH, H | contradiction Hne; reflexivity].
    + apply Ascii.eqb_neq in E. injection H as H. subst b.
      destruct (ascii_dec a x) as [Heq | _]; [contradiction | reflexivity].
Qed.

Lemma absent_in_literal_sound (sub lit s : string) :
  absent_in_literal sub lit = true ->
  PyStr.contains sub (lit ++ s) = PyStr.contains sub s.
Proof.
  induction lit as [| x lit IH]; intros H; [reflexivity |].
  cbn [absent_in_literal] in H.
  destruct (prefix_decided sub (String x lit)) as [[] |] eqn:Hd;
    try discriminate H.
  change ((String x lit) ++ s) with (String x (lit ++ s)).
  cbn [PyStr.contains].
  change (String x (lit ++ s)) with ((String x lit) ++ s).
  rewrite (prefix_decided_sound _ _ s false Hd), (IH H). reflexivity.
Qed.

(** **** X22.
    The URL the script writes for a post whose topic and post identifiers
    are integers is labelled as a discussion: the link text is
    [Discussion: Discourse Post #] followed by the post identifier. *)
Theorem X22_label_of_a_written_url (w : World)
    (post : list (string * Preprocess.Scalar)) (topic_id post_id : Z) :
  Preprocess.get "topic_id" post (Preprocess.JStr "") = Preprocess.JInt topic_id ->
  Preprocess.get "post_id" post Preprocess.JNull = Preprocess.JInt post_id ->
  path_fault w (Preprocess.post_url post) = None ->
  link_text w (Preprocess.post_url post)
  = "Discussion: Discourse Post #" ++ Preprocess.str (Preprocess.JInt post_id)
  /\ PyStr.last_part (PyStr.split "/" (Preprocess.post_url post))
     = Preprocess.str (Preprocess.JInt post_id).
Proof.
  intros Htopic Hpost Hpath.
  set (tid := Preprocess.str (Preprocess.JInt topic_id)).
  set (pid := Preprocess.str (Preprocess.JInt post_id)).
  assert (Hurl : Preprocess.post_url post
                 = "https://discourse.onlinedegree.iitm.ac.in/t/" ++ tid ++ "/" ++ pid).
  { unfold Preprocess.post_url. rewrite Htopic, Hpost. reflexivity. }
  assert (Htid : PyStr.all_chars Preprocess.decimal_char tid = true)
    by apply integer_chars.
  assert (Hpid : PyStr.all_chars Preprocess.decimal_char pid = true)
    by apply integer_chars.
  assert (Hcourse : PyStr.contains "course_content" (Preprocess.post_url post) = false).
  { rewrite Hurl, absent_in_literal_sound by reflexivity.
    apply contains_needs_first_char. rewrite !all_chars_app.
    rewrite (all_chars_impl _ _ tid
               (decimal_char_has (fun c => negb (Ascii.eqb c "c"%char)) eq_refl) Htid).
    rewrite (all_chars_impl _ _ pid
               (decimal_char_has (fun c => negb (Ascii.eqb c "c"%char)) eq_refl) Hpid).
    reflexivity. }
  assert (Hsite : PyStr.contains "onlinedegree.iitm.ac.in" (Preprocess.post_url post)
                  = true).
  { rewrite Hurl.
    change ("https://discourse.onlinedegree.iitm.ac.in/t/" ++ tid ++ "/" ++ pid)
      with ("https://discourse."
            ++ "onlinedegree.iitm.ac.in" ++ "/t/" ++ tid ++ "/" ++ pid).
    apply contains_app_r, contains_here. }
  assert (Hparts : PyStr.split "/" (Preprocess.post_url post)
                   = (PyStr.split "/"
                        ("https://discourse.onlinedegree.iitm.ac.in/t/" ++ tid)
                      ++ [pid])%list).
  { rewrite Hurl.
    change ("/" ++ pid) with (String "/" pid).
    rewrite <- (append_assoc "https://discourse.onlinedegree.iitm.ac.in/t/" tid).
    rewrite split_app. f_equal. apply split_single.
    exact (all_chars_impl _ _ pid
             (decimal_char_has (fun c => negb (Ascii.eqb c "/"%char)) eq_refl) Hpid). }
  assert (Hlast : PyStr.last_part (PyStr.split "/" (Preprocess.post_url post)) = pid).
  { rewrite Hparts. unfold PyStr.last_part. apply last_last. }
  assert (Hlen : (2 <=? List.length (PyStr.split "/" (Preprocess.post_url post)))%nat
                 = true).
  { rewrite Hparts, length_app. cbn [List.length].
    destruct (PyStr.split "/" ("https://discourse.onlinedegree.iitm.ac.in/t/" ++ tid))
      as [| l ls] eqn:Hsplit; [contradiction (split_nonempty _ _ Hsplit) |].
    cbn [List.length]. apply Nat.leb_le. lia. }
  split; [| exact Hlast].
  unfold link_text, _format_source_as_link_text, try_except, bind, Path, io, outcome,
    ret, result_of.
  rewrite Hpath. cbn [fst snd]. rewrite Hcourse, Hsite, orb_true_r, Hlen, Hlast.
  reflexivity.
Qed.

Lemma X22_witness :
  link_text Examples.calm
    (Preprocess.post_url
       [("post_id", Preprocess.JInt 7); ("topic_id", Preprocess.JInt 5)])
  = "Discussion: Discourse Post #7".
Proof.
  exact (proj1 (X22_label_of_a_written_url Examples.calm
                  [("post_id", Preprocess.JInt 7); ("topic_id", Preprocess.JInt 5)]
                  5 7 eq_refl eq_refl eq_refl)).
Defined.
